(** * DistrictBuilder: the redistricting models

    A shallow embedding of [django/publicmapping/redistricting/models.py]:
    the geometry helper [enforce_multi], the mixed geounit selector
    [Geounit.get_mixed_geounits], the statistics update
    [District.delta_stats], and the plan operations [Plan.purge],
    [Plan.get_nth_previous_version], [Plan.add_geounits],
    [Plan.paste_districts] and [Plan.fix_unassigned].

    Conventions of the embedding.
    - Python exceptions are values of [exn]; a call that may raise returns an
      [outcome].
    - The GEOS kernel and the spatial SQL predicates are not part of the
      repository: they are variables of the section [Redistricting].  The
      binary set operations ([union], [difference], [intersection]) may raise
      [GEOSException], as the source expects; the other kernel calls are
      total functions.
    - The database is an explicit value of type [DB], threaded through the
      operations; a transaction decorator is a function on state
      transformers.
    - Decimal numbers are exact rationals ([Q]); the quantization of the
      DecimalField columns is not modelled. *)

From Stdlib Require Import ZArith List Bool Lia QArith String Sorting.Sorted Permutation.
Import ListNotations.
Local Open Scope Z_scope.
Set Warnings "-register-all".

(** ** Exceptions and outcomes *)

Inductive exn : Type :=
| GEOSException
| AttributeError
| IndexError
| DatabaseError
| DoesNotExist
| MultipleObjectsReturned
| ZeroDivisionError
| AssertionError
| TypeError
| ValueError
| Exception (msg : string).

Inductive outcome (A : Type) : Type :=
| Return (a : A)
| Raise (e : exn).
Arguments Return {A} a.
Arguments Raise {A} e.

Definition bind {A B : Type} (m : outcome A) (k : A -> outcome B) : outcome B :=
  match m with
  | Return a => k a
  | Raise e => Raise e
  end.

Notation "x <- m ;; k" := (bind m (fun x => k))
  (at level 61, m at next level, right associativity).

(** [try: m except GEOSException: h] of the source. *)
Definition try_except_GEOS {A : Type} (m : outcome A) (h : A) : outcome A :=
  match m with
  | Raise GEOSException => Return h
  | other => other
  end.

(** ** Geometries

    A GEOS geometry carries an SRID and a shape.  Coordinates are kept as
    integers of the projection's unit. *)

Definition coord : Type := (Z * Z)%type.
Definition ring : Type := list coord.
(** A polygon is its list of rings, exterior ring first; no ring at all is
    the empty polygon. *)
Definition polygon : Type := list ring.

Inductive shape : Type :=
| Point (c : option coord)
| LineString (pts : list coord)
| Polygon (p : polygon)
| MultiPolygon (ps : list polygon)
| GeometryCollection (items : list shape).

Record GEOSGeometry : Type := mkGeom {
  srid : option Z;
  body : shape
}.

Definition polygon_empty (p : polygon) : bool :=
  match p with [] => true | _ => false end.

(** [geom.empty] *)
Fixpoint shape_empty (s : shape) : bool :=
  match s with
  | Point c => match c with None => true | Some _ => false end
  | LineString pts => match pts with [] => true | _ => false end
  | Polygon p => polygon_empty p
  | MultiPolygon ps => forallb polygon_empty ps
  | GeometryCollection items => forallb shape_empty items
  end.

Definition empty (g : GEOSGeometry) : bool := shape_empty (body g).


(** Truth value of a geometry object in a condition ([if geom], [not geom]):
    GEOS geometries define [__len__]; a collection with no member is false,
    a polygon counts its rings plus one, a point its dimensions. *)
Definition geom_len (g : GEOSGeometry) : nat :=
  match body g with
  | Point _ => 2
  | LineString pts => List.length pts
  | Polygon p => S (List.length (tl p))
  | MultiPolygon ps => List.length ps
  | GeometryCollection items => List.length items
  end.

Definition truthy (g : option GEOSGeometry) : bool :=
  match g with
  | None => false
  | Some x => negb (Nat.eqb (geom_len x) 0)
  end.

(** [empty_geom(srid)]: [MultiPolygon([], srid=srid)] *)
Definition empty_geom (s : option Z) : GEOSGeometry := mkGeom s (MultiPolygon []).

(** Iterating a geometry yields its members, each with the SRID of the
    whole. *)
Definition members (g : GEOSGeometry) : list GEOSGeometry :=
  match body g with
  | MultiPolygon ps => map (fun p => mkGeom (srid g) (Polygon p)) ps
  | GeometryCollection items => map (mkGeom (srid g)) items
  | _ => []
  end.

(** The polygons that the loop
    [for item in geom: for component in enforce_multi(item): mpoly.append(component)]
    appends for one item: the call [enforce_multi(item)] has [collapse=False],
    so it recurses on the members only. *)
Fixpoint enforce_multi_components (s : shape) : list polygon :=
  if shape_empty s then []
  else match s with
       | MultiPolygon ps => ps
       | Polygon p => [p]
       | GeometryCollection items => flat_map enforce_multi_components items
       | _ => []
       end.

(** ** The unit catalog *)

Record Geolevel : Type := mkGeolevel {
  gl_id : Z;
  gl_min_zoom : Z;
  gl_tolerance : Q
}.

(** A row of [redistricting_geounit].  The objects that the selector builds
    from its SQL rows populate [id], [geom], [child_id] and [geolevel_id]
    only: their [center] is [None]. *)
Record Geounit : Type := mkGeounit {
  gu_id : Z;
  gu_child_id : option Z;
  gu_geolevel_id : Z;
  gu_geom : GEOSGeometry;
  gu_center : option GEOSGeometry
}.

(** A legislative body, with the result of [get_geolevels()] (coarsest level
    first, base level last) and of [get_base_geolevel()]. *)
Record LegislativeBody : Type := mkBody {
  lb_member : string;
  lb_max_districts : Z;
  lb_geolevels : list Geolevel;
  lb_base_geolevel : Z
}.

Definition mem_Z (x : Z) (l : list Z) : bool := existsb (Z.eqb x) l.

Definition same_level (a b : Geolevel) : bool := gl_id a =? gl_id b.

(** [levels[len(levels)-1]]: on an empty list the index is -1, which raises. *)
Definition last_level (levels : list Geolevel) : outcome Geolevel :=
  match rev levels with
  | [] => Raise IndexError
  | l :: _ => Return l
  end.

(** ** The database *)

Record Subject : Type := mkSubject {
  s_id : Z;
  s_percentage_denominator : option Z
}.

Record Characteristic : Type := mkCharacteristic {
  ch_subject : Z;
  ch_geounit : Z;
  ch_number : Q
}.

Record Plan : Type := mkPlan {
  p_id : Z;
  p_is_valid : bool;
  p_version : Z;
  p_min_version : Z;
  p_legislative_body : LegislativeBody
}.

(** A district object; [d_id] is the primary key, [None] until the first
    [save()].  [d_district_id] is the id that is constant over the versions
    of the district. *)
Record District : Type := mkDistrict {
  d_id : option Z;
  d_district_id : Z;
  d_name : string;
  d_plan : Z;
  d_geom : option GEOSGeometry;
  d_simple : option GEOSGeometry;
  d_version : Z;
  d_is_locked : bool;
  d_num_members : Z
}.

Record ComputedCharacteristic : Type := mkComputed {
  cc_id : option Z;
  cc_subject : Z;
  cc_district : Z;
  cc_number : Q;
  cc_percentage : option Q
}.

Inductive ContentType : Type :=
| ct_district
| ct_other.

Definition is_ct_district (c : ContentType) : bool :=
  match c with ct_district => true | ct_other => false end.

(** A row of [django.contrib.comments]: loosely bound to its object by
    content type and primary key. *)
Record Comment : Type := mkComment {
  cmt_id : option Z;
  cmt_object_pk : Z;
  cmt_content_type : ContentType
}.

(** A row of [tagging.TaggedItem]. *)
Record TaggedItem : Type := mkTagged {
  ti_id : option Z;
  ti_object_id : Z;
  ti_content_type : ContentType
}.

(** The tables the operations read and write, and the counter that the
    inserts draw primary keys from. *)
Record DB : Type := mkDB {
  plans : list Plan;
  districts : list District;
  computed : list ComputedCharacteristic;
  comments : list Comment;
  tags : list TaggedItem;
  next_pk : Z
}.

Definition with_districts (db : DB) (ds : list District) : DB :=
  mkDB (plans db) ds (computed db) (comments db) (tags db) (next_pk db).
Definition with_computed (db : DB) (cs : list ComputedCharacteristic) : DB :=
  mkDB (plans db) (districts db) cs (comments db) (tags db) (next_pk db).
Definition with_comments (db : DB) (cs : list Comment) : DB :=
  mkDB (plans db) (districts db) (computed db) cs (tags db) (next_pk db).
Definition with_tags (db : DB) (ts : list TaggedItem) : DB :=
  mkDB (plans db) (districts db) (computed db) (comments db) ts (next_pk db).
Definition with_plans (db : DB) (ps : list Plan) : DB :=
  mkDB ps (districts db) (computed db) (comments db) (tags db) (next_pk db).
Definition bump_pk (db : DB) : DB :=
  mkDB (plans db) (districts db) (computed db) (comments db) (tags db) (next_pk db + 1).

Definition set_d_id (d : District) (i : option Z) : District :=
  mkDistrict i (d_district_id d) (d_name d) (d_plan d) (d_geom d) (d_simple d)
    (d_version d) (d_is_locked d) (d_num_members d).
Definition set_d_version (d : District) (v : Z) : District :=
  mkDistrict (d_id d) (d_district_id d) (d_name d) (d_plan d) (d_geom d) (d_simple d)
    v (d_is_locked d) (d_num_members d).
Definition set_d_geom (d : District) (g : option GEOSGeometry) : District :=
  mkDistrict (d_id d) (d_district_id d) (d_name d) (d_plan d) g (d_simple d)
    (d_version d) (d_is_locked d) (d_num_members d).
Definition set_d_simple (d : District) (g : option GEOSGeometry) : District :=
  mkDistrict (d_id d) (d_district_id d) (d_name d) (d_plan d) (d_geom d) g
    (d_version d) (d_is_locked d) (d_num_members d).

Definition set_p_version (p : Plan) (v : Z) : Plan :=
  mkPlan (p_id p) (p_is_valid p) v (p_min_version p) (p_legislative_body p).
Definition set_p_min_version (p : Plan) (v : Z) : Plan :=
  mkPlan (p_id p) (p_is_valid p) (p_version p) v (p_legislative_body p).
Definition set_p_is_valid (p : Plan) (b : bool) : Plan :=
  mkPlan (p_id p) b (p_version p) (p_min_version p) (p_legislative_body p).

Definition has_pk (pk : Z) (i : option Z) : bool :=
  match i with Some k => k =? pk | None => false end.

Definition pk_in (pks : list Z) (i : option Z) : bool :=
  match i with Some k => mem_Z k pks | None => false end.

(** The primary keys of a list of rows. *)
Definition pks_of (ds : list District) : list Z :=
  flat_map (fun d => match d_id d with Some k => [k] | None => [] end) ds.

(** A code that may raise in the middle of its database writes: the writes
    made before the exception stay in the state, until a transaction
    decorator discards them. *)
Definition MDB (A : Type) : Type := DB -> outcome A * DB.

Definition ret {A : Type} (a : A) : MDB A := fun db => (Return a, db).
Definition throw {A : Type} (e : exn) : MDB A := fun db => (Raise e, db).
Definition mbind {A B : Type} (m : MDB A) (k : A -> MDB B) : MDB B :=
  fun db =>
    match m db with
    | (Return a, db') => k a db'
    | (Raise e, db') => (Raise e, db')
    end.
Definition lift {A : Type} (o : outcome A) : MDB A := fun db => (o, db).
Definition write (f : DB -> DB) : MDB unit := fun db => (Return tt, f db).
Definition run {A : Type} (f : DB -> A * DB) : MDB A :=
  fun db => let (a, db') := f db in (Return a, db').

Notation "x <~ m ;; k" := (mbind m (fun x => k))
  (at level 61, m at next level, right associativity).
Notation "m ;;; k" := (mbind m (fun _ => k))
  (at level 61, right associativity).

(** Insertion into a list of versions kept in strictly descending order. *)
Fixpoint insert_desc (v : Z) (l : list Z) : list Z :=
  match l with
  | [] => [v]
  | x :: t =>
      if x <? v then v :: l
      else if x =? v then l
      else x :: insert_desc v t
  end.

(** Stable insertion sort by a comparison. *)
Fixpoint insert_by {A : Type} (le : A -> A -> bool) (a : A) (l : list A) : list A :=
  match l with
  | [] => [a]
  | x :: t => if le a x then a :: l else x :: insert_by le a t
  end.

Definition sort_by {A : Type} (le : A -> A -> bool) (l : list A) : list A :=
  fold_right (insert_by le) [] l.

(** A Python dictionary with integer keys, as the list of its items. *)
Fixpoint dict_set {V : Type} (k : Z) (v : V) (d : list (Z * V)) : list (Z * V) :=
  match d with
  | [] => [(k, v)]
  | (k', v') :: t => if k' =? k then (k, v) :: t else (k', v') :: dict_set k v t
  end.

Fixpoint dict_get {V : Type} (k : Z) (d : list (Z * V)) : option V :=
  match d with
  | [] => None
  | (k', v') :: t => if k' =? k then Some v' else dict_get k t
  end.

(** The messages of [fix_unassigned], with the numbers they print. *)
Inductive message : Type :=
| NoUnassignedUnits
| AllDistrictsNeeded (num_districts : Z)
| PercentageTooLow (pct_assigned min_percent : Z)
| UnitsFixed (num_fixed : Z) (num_remaining : option Z)
| NoneFixed.

(** The primary keys of the district rows are set and distinct. *)
Definition keyed (db : DB) : Prop :=
  forall d e, In d (districts db) -> In e (districts db) ->
    d_id d = d_id e -> d_id d <> None /\ d = e.

(** ** Users, access and orderings *)

Record User : Type := mkUser {
  u_id : Z;
  u_is_staff : bool
}.

(** The fields of a plan that the permission checks read. *)
Record PlanAccess : Type := mkAccess {
  pa_owner : Z;
  pa_is_template : bool;
  pa_is_shared : bool
}.

(** [can_edit(user, plan)] *)
Definition can_edit (user : User) (plan : PlanAccess) : bool :=
  ((pa_owner plan =? u_id user) || u_is_staff user)
  && negb (pa_is_template plan) && negb (pa_is_shared plan).

(** [can_view(user, plan)] *)
Definition can_view (user : User) (plan : PlanAccess) : bool :=
  pa_is_shared plan || pa_is_template plan.

(** [can_copy(user, plan)] *)
Definition can_copy (user : User) (plan : PlanAccess) : bool :=
  pa_is_template plan || pa_is_shared plan || (pa_owner plan =? u_id user)
  || u_is_staff user.

(** [District.sortVer] *)
Definition sortVer (d : District) : Z := d_district_id d * 10000 + d_version d.

(** [Plan.get_biggest_geolevel], on the geolevels of the legislative levels
    of the body in the order of the query: the first one is the candidate,
    and a level replaces it when its minimum zoom is strictly less. *)
Definition get_biggest_geolevel (leg_levels : list Geolevel) : outcome Geolevel :=
  match leg_levels with
  | [] => Raise IndexError
  | l0 :: _ =>
      Return (fold_left (fun geolevel l =>
                           if gl_min_zoom l <? gl_min_zoom geolevel then l else geolevel)
                leg_levels l0)
  end.

(** The ids of the levels grow along the list, from [index] on. *)
Fixpoint increasing_from (index : Z) (levels : list Geolevel) : Prop :=
  match levels with
  | [] => True
  | l :: levels' => index <= gl_id l /\ increasing_from (gl_id l + 1) levels'
  end.


(** ** A small world for the examples

    A kernel, a catalog and a few databases on which the operations can be
    run. *)
Module Sample.

Definition square (x y : Z) : polygon :=
  [[(x, y); (x + 1, y); (x + 1, y + 1); (x, y + 1); (x, y)]].

Definition mp (ps : list polygon) : GEOSGeometry := mkGeom (Some 3785) (MultiPolygon ps).

Definition pt (x y : Z) : GEOSGeometry := mkGeom (Some 3785) (Point (Some (x, y))).

(** A kernel that finds an invalid topology in every set operation. *)
Definition invalid_topology (a b : GEOSGeometry) : outcome GEOSGeometry :=
  Raise GEOSException.

Definition same_geometry (g : GEOSGeometry) : GEOSGeometry := g.

Definition collection (gs : list GEOSGeometry) : GEOSGeometry :=
  mkGeom (Some 3785) (GeometryCollection (map body gs)).

Definition never (a b : GEOSGeometry) : bool := false.

Definition no_relation (a b : GEOSGeometry) (pattern : string) : bool := false.

Definition no_buffer (g : GEOSGeometry) (d : Z) : GEOSGeometry := g.

Definition no_simplify (g : GEOSGeometry) (t : Q) : GEOSGeometry := g.

Definition no_coords (g : GEOSGeometry) : Z := 0.

Definition by_name (d : District) : string := d_name d.

Definition member (b : LegislativeBody) (i : Z) : string := "District".

Definition county : Geolevel := mkGeolevel 1 0 (100 # 1).
Definition tract : Geolevel := mkGeolevel 2 5 (10 # 1).
Definition block : Geolevel := mkGeolevel 3 10 (1 # 1).

Definition senate : LegislativeBody := mkBody "District %d" 2 [county; tract; block] 3.

(** Four blocks in a row. *)
Definition blocks : list Geounit :=
  [ mkGeounit 1 None 3 (mp [square 0 0]) (Some (pt 0 0));
    mkGeounit 2 None 3 (mp [square 1 0]) (Some (pt 1 0));
    mkGeounit 3 None 3 (mp [square 2 0]) (Some (pt 2 0));
    mkGeounit 4 None 3 (mp [square 3 0]) (Some (pt 3 0)) ].

Definition row (pk district_id : Z) (name : string) (geom : option GEOSGeometry)
    (version : Z) (locked : bool) : District :=
  mkDistrict (Some pk) district_id name 1 geom None version locked 1.

(** A plan at version 5 whose district 1 has rows at the versions 1, 2, 4
    and 5, with a comment, a tag and a statistic on some of them. *)
Definition plan5 : Plan := mkPlan 1 false 5 0 senate.

Definition history : DB :=
  mkDB [plan5]
    [ row 1 1 "District 1" (Some (mp [square 0 0])) 1 false;
      row 2 1 "District 1" (Some (mp [square 0 0])) 2 false;
      row 3 1 "District 1" (Some (mp [square 0 0])) 4 false;
      row 4 1 "District 1" (Some (mp [square 0 0])) 5 false ]
    [ mkComputed (Some 5) 1 2 (10 # 1) None; mkComputed (Some 6) 1 4 (12 # 1) None ]
    [ mkComment (Some 7) 2 ct_district; mkComment (Some 8) 4 ct_district;
      mkComment (Some 9) 4 ct_other ]
    [ mkTagged (Some 10) 3 ct_district; mkTagged (Some 11) 4 ct_district ]
    12.

(** A plan at version 1 whose district 1 is locked. *)
Definition plan1 : Plan := mkPlan 1 true 1 0 senate.

Definition locked_db : DB :=
  mkDB [plan1]
    [ row 1 0 "Unassigned" (Some (mp [square 2 0; square 3 0])) 1 false;
      row 2 1 "District 1" (Some (mp [square 0 0; square 1 0])) 1 true ]
    [] [] [] 3.

(** A plan whose district 1 has a row with no geometry. *)
Definition plan0 : Plan := mkPlan 1 false 0 0 senate.

Definition null_geometry_db : DB :=
  mkDB [plan0]
    [ row 1 0 "Unassigned" (Some (mp [square 0 0])) 0 false;
      row 2 1 "District 1" None 0 false ]
    [] [] [] 3.

Definition pasted : District :=
  mkDistrict (Some 9) 1 "District 1" 2 (Some (mp [square 1 0])) None 0 false 1.

Definition paste_nothing (self : Plan) (d : District) (version : Z)
    (others : option (list District)) : MDB (option (Z * list District)) :=
  ret None.

(** A plan at version 2 after two edits: the first one took the blocks 1
    and 2 out of Unassigned for district 1, the second one moved the block 2
    to district 2 and made no row for Unassigned. *)
Definition plan2 : Plan := mkPlan 1 false 2 0 senate.

Definition moved_db : DB :=
  mkDB [plan2]
    [ row 1 0 "Unassigned" (Some (mp [square 0 0; square 1 0; square 2 0; square 3 0]))
        0 false;
      row 2 0 "Unassigned" (Some (mp [square 2 0; square 3 0])) 1 false;
      row 3 1 "District 1" (Some (mp [square 0 0; square 1 0])) 1 false;
      row 4 1 "District 1" (Some (mp [square 0 0])) 2 false;
      row 5 2 "District 2" (Some (mp [square 1 0])) 2 false ]
    [] [] [] 6.

(** The base units of a geometry: the blocks that have a square of it. *)
Definition blocks_in (self : Plan) (g : option GEOSGeometry) (threshold : Z)
    : list (Z * string) :=
  match g with
  | Some (mkGeom _ (MultiPolygon ps)) =>
      map (fun p => match p with
                    | ((x, _) :: _) :: _ => (x + 1, "block"%string)
                    | _ => (0, "block"%string)
                    end) ps
  | _ => []
  end.

Definition population (d : District) : Q := 0%Q.

(** Three subjects in a chain: the denominator of 3 is 2, the one of 2 is 1. *)
Definition chain : list Subject :=
  [ mkSubject 1 None; mkSubject 2 (Some 1); mkSubject 3 (Some 2) ].

(** A kernel on multipolygons made of grid squares: the set operations go
    square by square. *)
Definition coord_eqb (a b : coord) : bool := (fst a =? fst b) && (snd a =? snd b).

Fixpoint list_eqb {A : Type} (eqb : A -> A -> bool) (l1 l2 : list A) : bool :=
  match l1, l2 with
  | [], [] => true
  | x :: t1, y :: t2 => eqb x y && list_eqb eqb t1 t2
  | _, _ => false
  end.

Definition polygon_eqb : polygon -> polygon -> bool := list_eqb (list_eqb coord_eqb).

Definition squares_of (g : GEOSGeometry) : list polygon :=
  enforce_multi_components (body g).

Definition has_square (g : GEOSGeometry) (p : polygon) : bool :=
  existsb (polygon_eqb p) (squares_of g).

Definition grid_difference (a b : GEOSGeometry) : outcome GEOSGeometry :=
  Return (mkGeom (srid a)
            (MultiPolygon (filter (fun p => negb (has_square b p)) (squares_of a)))).



Definition grid_within (a b : GEOSGeometry) : bool := forallb (has_square b) (squares_of a).

Definition grid_intersects (a b : GEOSGeometry) : bool := existsb (has_square b) (squares_of a).


(** A county made of the blocks 1 and 2, above the four blocks. *)
Definition county_and_blocks : list Geounit :=
  mkGeounit 10 None 1 (mp [square 0 0; square 1 0]) (Some (pt 0 0)) :: blocks.

(** A plan at version 0 in which district 2 has the block 1 and the
    Unassigned district the others. *)
Definition two_districts : DB :=
  mkDB [plan0]
    [ row 1 0 "Unassigned" (Some (mp [square 1 0; square 2 0; square 3 0])) 0 false;
      row 2 2 "District 2" (Some (mp [square 0 0])) 0 false ]
    [] [] [] 3.

(** The statistics of the district row 1 for the subjects of the chain, and
    the values of the block 1. *)
Definition chain_values : list Characteristic :=
  [ mkCharacteristic 1 1 (10 # 1); mkCharacteristic 2 1 (10 # 1);
    mkCharacteristic 3 1 (1 # 1) ].

Definition chain_db : DB :=
  mkDB [plan0] [ row 1 1 "District 1" (Some (mp [square 1 0])) 0 false ]
    [ mkComputed (Some 2) 1 1 (100 # 1) None;
      mkComputed (Some 3) 2 1 (50 # 1) None;
      mkComputed (Some 4) 3 1 (10 # 1) None ]
    [] [] 5.

(** A relation that holds of every pair of geometries. *)
Definition always (a b : GEOSGeometry) : bool := true.


End Sample.

Section Redistricting.

Set Default Proof Using "Type".

(** *** The geometry kernel *)

Variable cascaded_union : GEOSGeometry -> GEOSGeometry.
Variable geos_union : GEOSGeometry -> GEOSGeometry -> outcome GEOSGeometry.
Variable geos_difference : GEOSGeometry -> GEOSGeometry -> outcome GEOSGeometry.
Variable geos_intersection : GEOSGeometry -> GEOSGeometry -> outcome GEOSGeometry.

(** [enforce_multi(geom)] with [collapse=False]. *)
Definition enforce_multi_plain (geom : option GEOSGeometry) : GEOSGeometry :=
  let mpoly := mkGeom None (MultiPolygon []) in
  match geom with
  | None => mpoly
  | Some g =>
      let mpoly := mkGeom (srid g) (MultiPolygon []) in
      if empty g then mpoly
      else match body g with
           | MultiPolygon _ => g
           | Polygon p => mkGeom (srid g) (MultiPolygon [p])
           | GeometryCollection items =>
               mkGeom (srid g) (MultiPolygon (flat_map enforce_multi_components items))
           | _ => mpoly
           end
  end.

(** [enforce_multi(geom, collapse)].  The recursive calls of the source are
    [enforce_multi(geom.cascaded_union)] and [enforce_multi(item)], both with
    [collapse=False], and [enforce_multi(mpoly, collapse)] on the multipolygon
    just built, which is either empty or takes the MultiPolygon branch. *)
Definition enforce_multi (geom : option GEOSGeometry) (collapse : bool) : GEOSGeometry :=
  let mpoly := mkGeom None (MultiPolygon []) in
  match geom with
  | None => mpoly
  | Some g =>
      let mpoly := mkGeom (srid g) (MultiPolygon []) in
      if empty g then mpoly
      else match body g with
           | MultiPolygon _ =>
               if collapse then enforce_multi_plain (Some (cascaded_union g))
               else g
           | Polygon p => mkGeom (srid g) (MultiPolygon [p])
           | GeometryCollection items =>
               let mpoly :=
                 mkGeom (srid g) (MultiPolygon (flat_map enforce_multi_components items)) in
               if collapse then
                 (* enforce_multi(mpoly, collapse) *)
                 if empty mpoly then mkGeom (srid mpoly) (MultiPolygon [])
                 else enforce_multi_plain (Some (cascaded_union mpoly))
               else mpoly
           | _ => mpoly
           end
  end.

(** *** Spatial SQL and the catalog *)

Variable st_within : GEOSGeometry -> GEOSGeometry -> bool.
Variable st_intersects : GEOSGeometry -> GEOSGeometry -> bool.
(** The [ST_Collect] aggregate behind [collect()]. *)
Variable st_collect : list GEOSGeometry -> GEOSGeometry.
(** The [ST_Union] aggregate behind [unionagg()]. *)
Variable st_union : list GEOSGeometry -> GEOSGeometry.

(** The table [redistricting_geounit]. *)
Variable catalog : list Geounit.

(** [queryset.collect()]: [None] when the query has no row. *)
Definition collect (rows : list GEOSGeometry) : option GEOSGeometry :=
  match rows with
  | [] => None
  | _ => Some (st_collect rows)
  end.

(** [queryset.unionagg()] *)
Definition unionagg (rows : list GEOSGeometry) : option GEOSGeometry :=
  match rows with
  | [] => None
  | _ => Some (st_union rows)
  end.

(** [st_intersects(center, g)] on a row; a NULL center is not a match. *)
Definition center_intersects (u : Geounit) (g : GEOSGeometry) : bool :=
  match gu_center u with
  | Some c => st_intersects c g
  | None => false
  end.

(** [Geounit(id=row[0],geom=geom,child_id=row[1],geolevel_id=row[2])] *)
Definition row_geounit (u : Geounit) : Geounit :=
  mkGeounit (gu_id u) (gu_child_id u) (gu_geolevel_id u) (gu_geom u) None.

(** The query of the requested level:
    [... WHERE id IN (geounit_ids) AND <predicate>].  With no id the text
    [id IN ()] is not valid SQL. *)
Definition query_selected (geounit_ids : list Z) (inside at_base : bool)
    (boundary : GEOSGeometry) : outcome (list Geounit) :=
  match geounit_ids with
  | [] => Raise DatabaseError
  | _ =>
      let predicate (u : Geounit) :=
        if inside then
          if negb at_base then st_within (gu_geom u) boundary
          else center_intersects u boundary
        else
          if negb at_base then negb (st_intersects (gu_geom u) boundary)
          else negb (center_intersects u boundary) in
      Return (map row_geounit
                (filter (fun u => mem_Z (gu_id u) geounit_ids && predicate u) catalog))
  end.

(** The query of a finer level:
    [... WHERE geolevel_id = level.id AND <predicate on the remainder>]. *)
Definition query_level (level : Geolevel) (at_base : bool)
    (remainder : GEOSGeometry) : list Geounit :=
  let predicate (u : Geounit) :=
    if at_base then center_intersects u remainder
    else st_within (gu_geom u) remainder in
  map row_geounit
    (filter (fun u => (gu_geolevel_id u =? gl_id level) && predicate u) catalog).

(** *** Geounit.get_mixed_geounits *)

(** [union]: the current extent of the units selected so far. *)
Definition current_extent (units : list Geounit) : option GEOSGeometry :=
  match units with
  | [] => None
  | u0 :: _ =>
      let geoms := mkGeom (srid (gu_geom u0))
                     (GeometryCollection (map (fun unit => body (gu_geom unit)) units)) in
      Some (enforce_multi (Some geoms) true)
  end.

(** [intersects]: the selection less the current extent. *)
Definition unselected (selection : GEOSGeometry) (units : list Geounit)
    : outcome GEOSGeometry :=
  match current_extent units with
  | None => Return selection
  | Some union => geos_difference selection union
  end.

(** The body of the [try] block that computes [remainder]. *)
Definition remainder_of (inside : bool) (selection boundary intersects : GEOSGeometry)
    : outcome GEOSGeometry :=
  if inside then geos_intersection boundary intersects
  else
    remainder <- geos_difference selection boundary ;;
    geos_intersection remainder intersects.

(** The [for level in levels] loop, with the variables it updates. *)
Fixpoint mixed_loop (geounit_ids : list Z) (geolevel : Z) (inside : bool)
    (base_geolevel : Geolevel) (levels : list Geolevel)
    (searching : bool) (selection boundary : option GEOSGeometry)
    (units : list Geounit) : outcome (list Geounit) :=
  match levels with
  | [] => Return units
  | level :: levels' =>
      if geolevel =? gl_id level then
        let selection :=
          collect (map gu_geom (filter (fun u => mem_Z (gu_id u) geounit_ids) catalog)) in
        let selection := enforce_multi selection true in
        let boundary :=
          if negb (truthy boundary) then empty_geom (srid selection)
          else match boundary with Some b => b | None => empty_geom (srid selection) end in
        rows <- query_selected geounit_ids inside (same_level level base_geolevel) boundary ;;
        let units := units ++ rows in
        if same_level level base_geolevel then Return units
        else mixed_loop geounit_ids geolevel inside base_geolevel levels'
               true (Some selection) (Some boundary) units
      else if searching then
        match selection, boundary with
        | Some sel, Some bnd =>
            intersects <- unselected sel units ;;
            remainder <- try_except_GEOS (remainder_of inside sel bnd intersects)
                           (empty_geom (srid bnd)) ;;
            let remainder := enforce_multi (Some remainder) false in
            let units :=
              if negb (empty remainder) then
                units ++ query_level level (same_level level base_geolevel) remainder
              else units in
            mixed_loop geounit_ids geolevel inside base_geolevel levels'
              searching selection boundary units
        | _, _ => Raise AttributeError
        end
      else
        mixed_loop geounit_ids geolevel inside base_geolevel levels'
          searching selection boundary units
  end.

Definition get_mixed_geounits (geounit_ids : list Z) (legislative_body : LegislativeBody)
    (geolevel : Z) (boundary : option GEOSGeometry) (inside : bool)
    : outcome (list Geounit) :=
  if negb (truthy boundary) && inside then
    (* there are 0 geounits inside a non-existant boundary *)
    Return []
  else
    let levels := lb_geolevels legislative_body in
    base_geolevel <- last_level levels ;;
    mixed_loop geounit_ids geolevel inside base_geolevel levels false None boundary [].

(** *** Settings and the read-only tables *)

Variable MAX_UNDOS_DURING_EDIT : Z.
Variable FIX_UNASSIGNED_MIN_PERCENT : Z.
(** The table of subjects, in the order the database stores it. *)
Variable subject_table : list Subject.
Variable characteristic_table : list Characteristic.
(** [District.sortKey]: the name of the district, numbered names padded. *)
Variable sortKey : District -> string.
(** [legislative_body.member % district_id], or [str(district_id)] when the
    format fails. *)
Variable member_name : LegislativeBody -> Z -> string.
Variable relate_pattern : GEOSGeometry -> GEOSGeometry -> string -> bool.
Variable buffer : GEOSGeometry -> Z -> GEOSGeometry.
(** [geom.simplify(preserve_topology=True, tolerance=t)], made valid with
    [buffer(0)] when it is not. *)
Variable geos_simplify : GEOSGeometry -> Q -> GEOSGeometry.
Variable num_coords : GEOSGeometry -> Z.

(** *** Queries on districts *)

(** [plan.district_set] *)
Definition district_set (db : DB) (self : Plan) : list District :=
  filter (fun d => d_plan d =? p_id self) (districts db).

(** [Plan.get_districts_at_version]: for each [district_id] of the plan the
    rows whose version is the greatest one not above [version], sorted by
    [sortKey]. *)
Definition get_districts_at_version (db : DB) (self : Plan) (version : Z)
    : list District :=
  let rows := district_set db self in
  let is_latest (d : District) :=
    (d_version d <=? version) &&
    forallb (fun e => negb ((d_district_id e =? d_district_id d)
                            && (d_version e <=? version)
                            && (d_version d <? d_version e))) rows in
  sort_by (fun a b => String.leb (sortKey a) (sortKey b)) (filter is_latest rows).

(** [District.is_latest_version] *)
Definition is_latest_version (db : DB) (d : District) : bool :=
  forallb (fun e => negb ((d_plan e =? d_plan d)
                          && (d_district_id e =? d_district_id d))
                    || (d_version e <=? d_version d)) (districts db)
  && existsb (fun e => (d_plan e =? d_plan d)
                       && (d_district_id e =? d_district_id d)
                       && (d_version e =? d_version d)) (districts db).

(** *** Plan.get_nth_previous_version *)

(** The query
    [district_set.order_by('-version').values('version').annotate(count=Count('version'))]
    groups the rows of the plan by version, greatest version first. *)
Definition stored_versions (db : DB) (self : Plan) : list Z :=
  fold_right insert_desc [] (map d_version (district_set db self)).

Definition get_nth_previous_version (db : DB) (self : Plan) (steps : Z) : outcome Z :=
  let versions := stored_versions db self in
  if steps <? Z.of_nat (List.length versions) then
    if steps <? 0 then
      (* a query set refuses a negative index *)
      Raise AssertionError
    else Return (nth (Z.to_nat steps) versions 0)
  else
    Return 0.

(** *** Plan.purge *)

(** [deleteme.delete()] on district rows, with the cascade of Django on the
    foreign key of the computed characteristics. *)
Definition delete_districts (db : DB) (pks : list Z) : DB :=
  let db := with_computed db
              (filter (fun c => negb (mem_Z (cc_district c) pks)) (computed db)) in
  with_districts db (filter (fun d => negb (pk_in pks (d_id d))) (districts db)).

Definition delete_comments (db : DB) (pks : list Z) : DB :=
  with_comments db
    (filter (fun c => negb (mem_Z (cmt_object_pk c) pks
                            && is_ct_district (cmt_content_type c))) (comments db)).

Definition delete_tags (db : DB) (pks : list Z) : DB :=
  with_tags db
    (filter (fun t => negb (mem_Z (ti_object_id t) pks
                            && is_ct_district (ti_content_type t))) (tags db)).

Definition purge (db : DB) (self : Plan) (before after : option Z) : DB :=
  match before, after with
  | None, None => db
  | _, _ =>
      let deleteme : option (list District) :=
        match before with
        | Some before =>
            (* Can't purge before zero, since that's the starting point *)
            if before <=? 0 then None
            else
              let ds := get_districts_at_version db self before in
              let allQ (r : District) :=
                existsb (fun d => (d_district_id r =? d_district_id d)
                                  && (d_version r <? d_version d)) ds in
              Some (filter allQ (district_set db self))
        | None =>
            match after with
            | Some after =>
                Some (filter (fun r => after <? d_version r) (district_set db self))
            | None => None
            end
        end in
      match deleteme with
      | None => db
      | Some deleteme =>
          let pks := pks_of deleteme in
          let db := delete_comments db pks in
          let db := delete_tags db pks in
          delete_districts db pks
      end
  end.

(** [Plan.save] *)
Definition plan_save (db : DB) (self : Plan) : DB :=
  if existsb (fun p => p_id p =? p_id self) (plans db) then
    with_plans db (map (fun p => if p_id p =? p_id self then self else p) (plans db))
  else with_plans db (plans db ++ [self]).

(** [Plan.purge_beyond_nth_step] *)
Definition purge_beyond_nth_step (db : DB) (self : Plan) (steps : Z)
    : outcome (Plan * DB) :=
  if steps >=? 0 then
    prever <- get_nth_previous_version db self steps ;;
    if p_min_version self <? prever then
      let db := purge db self (Some prever) None in
      let self := set_p_min_version self prever in
      Return (self, plan_save db self)
    else Return (self, db)
  else Return (self, db).

(** *** Saving rows *)

(** [district.save()]: an insert when the object has no primary key (or no
    row has it), an update of its row otherwise.  The [post_save] signal that
    stamps the plan's edit time is not modelled. *)
Definition district_save (d : District) (db : DB) : District * DB :=
  match d_id d with
  | None =>
      let d' := set_d_id d (Some (next_pk db)) in
      (d', bump_pk (with_districts db (districts db ++ [d'])))
  | Some pk =>
      if existsb (fun r => has_pk pk (d_id r)) (districts db) then
        (d, with_districts db
              (map (fun r => if has_pk pk (d_id r) then d else r) (districts db)))
      else (d, with_districts db (districts db ++ [d]))
  end.

Definition insert_computed (c : ComputedCharacteristic) (db : DB)
    : ComputedCharacteristic * DB :=
  let c' := mkComputed (Some (next_pk db)) (cc_subject c) (cc_district c)
              (cc_number c) (cc_percentage c) in
  (c', bump_pk (with_computed db (computed db ++ [c']))).

Definition insert_comment (c : Comment) (db : DB) : DB :=
  let c' := mkComment (Some (next_pk db)) (cmt_object_pk c) (cmt_content_type c) in
  bump_pk (with_comments db (comments db ++ [c'])).

Definition insert_tag (t : TaggedItem) (db : DB) : DB :=
  let t' := mkTagged (Some (next_pk db)) (ti_object_id t) (ti_content_type t) in
  bump_pk (with_tags db (tags db ++ [t'])).

(** [computed.save()] on a row that exists. *)
Definition computed_save (c : ComputedCharacteristic) (db : DB) : DB :=
  with_computed db
    (map (fun r => match cc_id c with
                   | Some k => if has_pk k (cc_id r) then c else r
                   | None => r
                   end) (computed db)).

(** The primary key of a saved object; relating to an unsaved one fails. *)
Definition pk_of (d : District) : outcome Z :=
  match d_id d with
  | Some k => Return k
  | None => Raise ValueError
  end.

(** *** District.clone_relations_from *)

Definition clone_relations_from (self origin : District) : MDB unit :=
  self_pk <~ lift (pk_of self) ;;
  origin_pk <~ lift (pk_of origin) ;;
  write (fun db =>
    let cc := filter (fun c => cc_district c =? origin_pk) (computed db) in
    let db := fold_left (fun db c =>
                snd (insert_computed
                       (mkComputed None (cc_subject c) self_pk
                          (cc_number c) (cc_percentage c)) db)) cc db in
    let cmts := filter (fun c => (cmt_object_pk c =? origin_pk)
                                 && is_ct_district (cmt_content_type c)) (comments db) in
    let db := fold_left (fun db c =>
                insert_comment (mkComment None self_pk (cmt_content_type c)) db) cmts db in
    let items := filter (fun t => (ti_object_id t =? origin_pk)
                                  && is_ct_district (ti_content_type t)) (tags db) in
    fold_left (fun db t =>
      insert_tag (mkTagged None self_pk (ti_content_type t)) db) items db).

(** *** District.simplify *)

(** The entries of [simples]: one per level, with a point at the origin for
    each index that no level has. *)
Fixpoint simples (geom : GEOSGeometry) (levels : list Geolevel) (index : Z)
    : list shape :=
  match levels with
  | [] => []
  | level :: levels' =>
      let fill := repeat (Point (Some (0, 0))) (Z.to_nat (gl_id level - index)) in
      let index := Z.max index (gl_id level) in
      let simple :=
        if 0 <? num_coords geom then geos_simplify geom (gl_tolerance level)
        else geom in
      fill ++ body simple :: simples geom levels' (index + 1)
  end.

Definition simplify (body_ : LegislativeBody) (self : District) (db : DB)
    : District * DB :=
  let levels := rev (lb_geolevels body_) in
  match d_geom self with
  | Some geom =>
      let simple := mkGeom (srid geom) (GeometryCollection (simples geom levels 1)) in
      district_save (set_d_simple self (Some simple)) db
  | None => district_save (set_d_simple self None) db
  end.

(** *** District.delta_stats *)

(** [ORDER BY percentage_denominator DESC]: PostgreSQL puts the NULLs first
    in a descending order; [a] does not come after [b]. *)
Definition denominator_desc (a b : Subject) : bool :=
  match s_percentage_denominator a, s_percentage_denominator b with
  | None, _ => true
  | Some _, None => false
  | Some x, Some y => y <=? x
  end.

(** [Subject.objects.order_by('-percentage_denominator').all()] *)
Definition all_subjects : list Subject := sort_by denominator_desc subject_table.

(** [Characteristic.objects.filter(geounit__in=geounits, subject__exact=subject)
     .aggregate(Sum('number'))['number__sum']]: [None] over no row. *)
Definition aggregate_number (geounits : list Geounit) (subject : Subject) : option Q :=
  let rows := filter (fun c => mem_Z (ch_geounit c) (map gu_id geounits)
                               && (ch_subject c =? s_id subject)) characteristic_table in
  match rows with
  | [] => None
  | _ => Some (fold_left Qplus (map ch_number rows) 0%Q)
  end.

Definition computed_rows (db : DB) (subject district : Z) : list ComputedCharacteristic :=
  filter (fun c => (cc_subject c =? subject) && (cc_district c =? district)) (computed db).

(** [ComputedCharacteristic.objects.get(subject=..., district=...)] *)
Definition computed_get (subject district : Z) : MDB ComputedCharacteristic :=
  fun db =>
    match computed_rows db subject district with
    | [] => (Raise DoesNotExist, db)
    | [c] => (Return c, db)
    | _ => (Raise MultipleObjectsReturned, db)
    end.

(** [ComputedCharacteristic.objects.get_or_create(subject=..., district=...,
     defaults={'number': 0})] *)
Definition computed_get_or_create (subject district : Z)
    : MDB (ComputedCharacteristic * bool) :=
  fun db =>
    match computed_rows db subject district with
    | [] =>
        let (c, db') := insert_computed (mkComputed None subject district 0%Q None) db in
        (Return (c, true), db')
    | [c] => (Return (c, false), db)
    | _ => (Raise MultipleObjectsReturned, db)
    end.

Definition set_cc_number (c : ComputedCharacteristic) (n : Q) : ComputedCharacteristic :=
  mkComputed (cc_id c) (cc_subject c) (cc_district c) n (cc_percentage c).
Definition set_cc_percentage (c : ComputedCharacteristic) (p : option Q)
    : ComputedCharacteristic :=
  mkComputed (cc_id c) (cc_subject c) (cc_district c) (cc_number c) p.

(** [number / denom.number] when [denom.number > 0], else zero. *)
Definition percentage_of (number denominator : Q) : Q :=
  if Qle_bool denominator 0 then 0%Q else (number / denominator)%Q.

(** The body of the loop of [delta_stats] for one subject. *)
Definition delta_subject (self_pk : Z) (geounits : list Geounit) (combine : bool)
    (subject : Subject) : MDB bool :=
  match aggregate_number geounits subject with
  | None => ret false
  | Some aggregate =>
      cr <~ computed_get_or_create (s_id subject) self_pk ;;
      let computed := fst cr in
      let computed :=
        if combine then set_cc_number computed (cc_number computed + aggregate)%Q
        else set_cc_number computed (cc_number computed - aggregate)%Q in
      computed <~ match s_percentage_denominator subject with
                  | Some dn =>
                      denominator <~ computed_get dn self_pk ;;
                      ret (set_cc_percentage computed
                             (Some (percentage_of (cc_number computed)
                                      (cc_number denominator))))
                  | None => ret computed
                  end ;;
      write (computed_save computed) ;;;
      ret true
  end.

Fixpoint delta_loop (self_pk : Z) (geounits : list Geounit) (combine : bool)
    (subjects : list Subject) (changed : bool) : MDB bool :=
  match subjects with
  | [] => ret changed
  | subject :: subjects' =>
      c <~ delta_subject self_pk geounits combine subject ;;
      delta_loop self_pk geounits combine subjects' (c || changed)
  end.

Definition delta_stats (self : District) (geounits : list Geounit) (combine : bool)
    : MDB bool :=
  self_pk <~ lift (pk_of self) ;;
  delta_loop self_pk geounits combine all_subjects false.

(** *** Plan.add_geounits *)

(** [@transaction.commit_on_success]: the writes of the call are committed
    when it returns and rolled back when it raises; the Python objects keep
    what the call did to them. *)
Definition commit_on_success {A S : Type} (f : DB -> (outcome A * S) * DB) (db : DB)
    : (outcome A * S) * DB :=
  match f db with
  | ((Return a, s), db') => ((Return a, s), db')
  | ((Raise e, s), _) => ((Raise e, s), db)
  end.

(** [any((ds.is_locked and ds.district_id == districtid) for ds in districts)] *)
Definition target_is_locked (districts_ : list District) (districtid : Z) : bool :=
  existsb (fun ds => d_is_locked ds && (d_district_id ds =? districtid)) districts_.

(** [District.objects.filter(id__in=[d.id for d in districts if d.is_locked]).collect()] *)
Definition collect_locked (db : DB) (districts_ : list District) : option GEOSGeometry :=
  let ids := pks_of (filter d_is_locked districts_) in
  collect (flat_map (fun r => if pk_in ids (d_id r)
                              then match d_geom r with Some g => [g] | None => [] end
                              else []) (districts db)).

(** The removal of the locked sections from the changing geometry; returns
    the new [incremental] and [locked]. *)
Definition remove_locked (incremental locked : option GEOSGeometry)
    : outcome (option GEOSGeometry * option GEOSGeometry) :=
  match locked with
  | Some l =>
      if truthy locked then
        let l := if empty l then l else buffer l 0 in
        if empty l then Return (incremental, Some l)
        else match incremental with
             | Some i => x <- geos_difference i l ;; Return (Some x, Some l)
             | None => Raise AttributeError
             end
      else Return (incremental, locked)
  | None => Return (incremental, locked)
  end.

(** A copy of a district at the next version of the plan, not yet saved. *)
Definition copy_forward (self : Plan) (district : District) : District :=
  set_d_id (set_d_version district (p_version self + 1)) None.

(** The loop [for district in districts] over the districts other than the
    target; [target] and [fixed] are the variables it updates. *)
Fixpoint edit_others (self : Plan) (districtid : Z) (geounit_ids : list Z)
    (geolevel : Z) (incremental : option GEOSGeometry) (districts_ : list District)
    (target : option District) (fixed : bool) : MDB (option District * bool) :=
  match districts_ with
  | [] => ret (target, fixed)
  | district :: rest =>
      if d_district_id district =? districtid then
        edit_others self districtid geounit_ids geolevel incremental rest
          (Some district) fixed
      else
        match d_geom district with
        | None =>
            (* Nothing can interact with no geometry *)
            edit_others self districtid geounit_ids geolevel incremental rest target fixed
        | Some geom =>
            match incremental with
            | None => throw AttributeError
            | Some inc =>
                if negb (relate_pattern geom inc "T********") then
                  latest <~ (fun db => (Return (is_latest_version db district), db)) ;;
                  if negb latest then
                    district_copy <~ run (district_save (copy_forward self district)) ;;
                    clone_relations_from district_copy district ;;;
                    edit_others self districtid geounit_ids geolevel incremental rest
                      target true
                  else
                    edit_others self districtid geounit_ids geolevel incremental rest
                      target fixed
                else
                  geounits <~ lift (get_mixed_geounits geounit_ids
                                      (p_legislative_body self) geolevel (Some geom) true) ;;
                  let fixed := if (0 <? Z.of_nat (List.length geounits)) then true
                               else fixed in
                  g <~ lift (geos_difference geom inc) ;;
                  let district := set_d_geom district (Some (enforce_multi (Some g) false)) in
                  district_copy <~ run (district_save (copy_forward self district)) ;;
                  district_copy <~ run (simplify (p_legislative_body self) district_copy) ;;
                  clone_relations_from district_copy district ;;;
                  delta_stats district_copy geounits false ;;;
                  edit_others self districtid geounit_ids geolevel incremental rest
                    target fixed
            end
        end
  end.

(** The part of [add_geounits] on the target district: the temporary
    district when there is no target, the units gained, and the new row of
    the target.  Returns [fixed], [new_target] and [target]. *)
Definition edit_target (self : Plan) (districtid : Z) (geounit_ids : list Z)
    (geolevel : Z) (incremental locked : option GEOSGeometry)
    (target : option District) (fixed : bool) : MDB (bool * bool * District) :=
  tn <~ match target with
        | None =>
            let name := member_name (p_legislative_body self) districtid in
            t <~ run (district_save
                        (mkDistrict None districtid name (p_id self) None None
                           (p_version self) false 1)) ;;
            ret (t, true)
        | Some t => ret (t, false)
        end ;;
  let target := fst tn in
  let new_target := snd tn in
  bounds <~ lift (if truthy locked then
                    match d_geom target, locked with
                    | Some tg, Some l =>
                        if truthy (d_geom target) then
                          u <- geos_union tg l ;; Return (Some u)
                        else Return locked
                    | _, _ => Return locked
                    end
                  else Return (d_geom target)) ;;
  geounits <~ lift (get_mixed_geounits geounit_ids (p_legislative_body self)
                      geolevel bounds false) ;;
  let fixed := if (0 <? Z.of_nat (List.length geounits)) then true else fixed in
  geom <~ lift (match d_geom target with
                | Some tg =>
                    if truthy (d_geom target) then
                      match incremental with
                      | Some inc =>
                          union <- geos_union tg inc ;;
                          Return (enforce_multi (Some union) false)
                      | None => Raise AttributeError
                      end
                    else Return (enforce_multi incremental false)
                | None => Return (enforce_multi incremental false)
                end) ;;
  let target := set_d_geom target (Some geom) in
  target_copy <~ run (simplify (p_legislative_body self) (copy_forward self target)) ;;
  clone_relations_from target_copy target ;;;
  delta_stats target_copy geounits true ;;;
  ret (fixed, new_target, target).

(** The part of [add_geounits] that follows the purge: the new rows of the
    districts, then the new version of the plan and the undo window. *)
Definition add_geounits_edit (self : Plan) (districtid : Z) (geounit_ids : list Z)
    (geolevel : Z) (keep_old_versions : bool)
    (incremental locked : option GEOSGeometry) (districts_ : list District)
    (fixed : bool) (db : DB) : (outcome bool * Plan) * DB :=
  match (r <~ edit_others self districtid geounit_ids geolevel incremental
                districts_ None fixed ;;
         edit_target self districtid geounit_ids geolevel incremental locked
           (fst r) (snd r)) db with
  | (Raise e, db) => ((Raise e, self), db)
  | (Return (fixed, new_target, target), db) =>
      (* invalidate the plan, since it has been modified *)
      let self := set_p_is_valid self false in
      (* save any changes to the version of this plan *)
      let self := set_p_version self (p_version self + 1) in
      let db := plan_save db self in
      (* purge old versions *)
      match (if (0 <? MAX_UNDOS_DURING_EDIT) && negb keep_old_versions
             then purge_beyond_nth_step db self MAX_UNDOS_DURING_EDIT
             else Return (self, db)) with
      | Raise e => ((Raise e, self), db)
      | Return (self, db) =>
          (* purge the old target if a new one was created *)
          let db := if new_target then delete_districts db (pks_of [target])
                    else db in
          ((Return fixed, self), db)
      end
  end.

(** The function under the decorator.  It returns the flag (or raises), the
    plan object [self] as the call leaves it, and the database. *)
Definition add_geounits_body (self : Plan) (districtid : Z) (geounit_ids : list Z)
    (geolevel : Z) (version : Z) (keep_old_versions : bool) (db : DB)
    : (outcome bool * Plan) * DB :=
  let incremental :=
    unionagg (map gu_geom (filter (fun u => mem_Z (gu_id u) geounit_ids) catalog)) in
  let fixed := false in
  let districts_ := get_districts_at_version db self version in
  if target_is_locked districts_ districtid then ((Return false, self), db)
  else
    let locked := collect_locked db districts_ in
    match remove_locked incremental locked with
    | Raise e => ((Raise e, self), db)
    | Return (incremental, locked) =>
        let db := purge db self None (Some version) in
        add_geounits_edit self districtid geounit_ids geolevel keep_old_versions
          incremental locked districts_ fixed db
    end.

Definition add_geounits (self : Plan) (districtid : Z) (geounit_ids : list Z)
    (geolevel : Z) (version : Z) (keep_old_versions : bool) (db : DB)
    : (outcome bool * Plan) * DB :=
  commit_on_success
    (add_geounits_body self districtid geounit_ids geolevel version keep_old_versions) db.

(** *** Plan.paste_districts *)

(** [Plan.paste_district], the paste of one district: it returns the primary
    key of the pasted row and the districts of the plan as the paste leaves
    them, or [None] when locked districts consume the pasted one.  The
    properties below hold whatever it does. *)
Variable paste_district :
  Plan -> District -> Z -> option (list District) -> MDB (option (Z * list District)).

(** The loop that counts the slots in use:
    [if d.district_id == 0 or not d.geom.empty: allowed_districts -= 1]. *)
Fixpoint count_allowed (current_districts : list District) (allowed_districts : Z)
    : outcome Z :=
  match current_districts with
  | [] => Return allowed_districts
  | d :: rest =>
      if d_district_id d =? 0 then count_allowed rest (allowed_districts - 1)
      else match d_geom d with
           | None => Raise AttributeError
           | Some g =>
               if negb (empty g) then count_allowed rest (allowed_districts - 1)
               else count_allowed rest allowed_districts
           end
  end.

(** The loop [for district in districts] of [paste_districts]. *)
Fixpoint paste_loop (self : Plan) (districts_ : list District) (version : Z)
    (others : option (list District)) (pasted_list : list Z) : MDB (list Z) :=
  match districts_ with
  | [] => ret pasted_list
  | district :: rest =>
      r <~ paste_district self district version others ;;
      match r with
      | None => throw TypeError
      | Some (new_district_id, others) =>
          let pasted_list :=
            if 0 <? new_district_id then pasted_list ++ [new_district_id]
            else pasted_list in
          paste_loop self rest version (Some others) pasted_list
      end
  end.

Definition too_many : exn := Exception "Tried to merge too many districts".

(** The part of [paste_districts] that follows the capacity check. *)
Definition paste_all (self : Plan) (districts_ : list District) (version : Z) (db : DB)
    : (outcome (list Z) * Plan) * DB :=
  let db := if version <? p_version self
            then purge db self None (Some version) else db in
  match paste_loop self districts_ version None [] db with
  | (Raise e, db) => ((Raise e, self), db)
  | (Return pasted_list, db) =>
      if (0 <? Z.of_nat (List.length pasted_list)) then
        let self := set_p_version self (version + 1) in
        ((Return pasted_list, self), plan_save db self)
      else ((Return pasted_list, self), db)
  end.

Definition paste_districts (self : Plan) (districts_ : list District)
    (version : option Z) (db : DB) : (outcome (list Z) * Plan) * DB :=
  let version := match version with None => p_version self | Some v => v end in
  let current_districts := get_districts_at_version db self version in
  let allowed_districts := lb_max_districts (p_legislative_body self) + 1 in
  match count_allowed current_districts allowed_districts with
  | Raise e => ((Raise e, self), db)
  | Return allowed_districts =>
      if allowed_districts <=? 0 then ((Raise too_many, self), db)
      else
        (* We've got room.  Add the districts. *)
        paste_all self districts_ version db
  end.

(** The slots in use at a version: the Unassigned district and every
    district whose geometry is not empty. *)
Definition occupied (d : District) : bool :=
  (d_district_id d =? 0)
  || match d_geom d with Some g => negb (empty g) | None => false end.

Definition occupied_slots (db : DB) (self : Plan) (version : Z) : Z :=
  Z.of_nat (List.length (filter occupied (get_districts_at_version db self version))).

(** *** Plan.fix_unassigned *)

Variable geos_within : GEOSGeometry -> GEOSGeometry -> bool.
Variable geos_intersects : GEOSGeometry -> GEOSGeometry -> bool.
Variable geos_touches : GEOSGeometry -> GEOSGeometry -> bool.
(** [Plan.get_base_geounits_in_geom]: the ids and portable ids of the base
    geounits whose center lies in a geometry, found with two buffered
    queries.  The properties below hold whatever it returns. *)
Variable get_base_geounits_in_geom :
  Plan -> option GEOSGeometry -> Z -> list (Z * string).
(** The result of the [Sum] calculator of [redistricting.calculators] on
    the subject [FIX_UNASSIGNED_COMPARATOR_SUBJECT] for a district. *)
Variable comparator_value : District -> Q.

(** [queryset.get(...)] on the rows that match. *)
Definition get_one {A : Type} (rows : list A) : outcome A :=
  match rows with
  | [] => Raise DoesNotExist
  | [r] => Return r
  | _ => Raise MultipleObjectsReturned
  end.

(** [Polygon(poly.exterior_ring)] *)
Definition exterior (p : GEOSGeometry) : GEOSGeometry :=
  match body p with
  | Polygon rings => mkGeom (srid p) (Polygon (firstn 1 rings))
  | _ => p
  end.

(** The polygons of a district, for [for poly in district.geom]. *)
Definition polys (d : District) : list GEOSGeometry :=
  match d_geom d with
  | Some g => members g
  | None => []
  end.

(** The unlocked districts of the plan that have a geometry. *)
Definition unlocked_districts (db : DB) (self : Plan) (version : Z) : list District :=
  let ds := get_districts_at_version db self version in
  let ids := pks_of (filter (fun d => negb (d_district_id d =? 0)
                                      && negb (d_is_locked d)) ds) in
  let rows := sort_by (fun a b => String.leb (d_name a) (d_name b))
                (filter (fun r => pk_in ids (d_id r)) (districts db)) in
  filter (fun d => truthy (d_geom d)
                   && match d_geom d with Some g => negb (empty g) | None => false end)
    rows.

(** The first loop: the units of the unassigned clusters that lie within the
    exterior of a district. *)
Definition hole_fills (self : Plan) (threshold : Z) (unassigned_geom : GEOSGeometry)
    (districts_ : list District) : list (Z * (Z * Q)) :=
  fold_left (fun to_add unassigned_poly =>
    fold_left (fun to_add district =>
      fold_left (fun to_add poly =>
        if geos_within unassigned_poly (exterior poly) then
          fold_left (fun to_add tup =>
                       dict_set (fst tup) (d_district_id district, 0%Q) to_add)
            (get_base_geounits_in_geom self (Some unassigned_poly) threshold) to_add
        else to_add)
        (polys district) to_add)
      districts_ to_add)
    (members unassigned_geom) [].

(** [Plan.get_unassigned_geounits] *)
Definition get_unassigned_geounits (db : DB) (self : Plan) (threshold : Z)
    (version : Z) : outcome (list (Z * string)) :=
  let rows :=
    filter (fun d => (d_district_id d =? 0)
                     && (if version =? 0 then true else d_version d <=? version))
      (district_set db self) in
  match sort_by (fun a b => d_version b <=? d_version a) rows with
  | [] => Raise IndexError
  | unassigned :: _ =>
      Return (get_base_geounits_in_geom self (d_geom unassigned) threshold)
  end.

(** [Geounit.objects.filter(geolevel=geolevel).count()] *)
Definition num_total_units (geolevel : Z) : Z :=
  Z.of_nat (List.length (filter (fun u => gu_geolevel_id u =? geolevel) catalog)).

(** [pct_assigned]: one minus the share of the unassigned base units. *)
Definition pct_assigned (num_unassigned total : Z) : Q :=
  (1 - (inject_Z num_unassigned / inject_Z total))%Q.

(** [below_min_pct = pct_assigned < FIX_UNASSIGNED_MIN_PERCENT / 100.0].  The
    source computes the two sides in floating point; they are exact here. *)
Definition below_min_pct (num_unassigned total : Z) : bool :=
  negb (Qle_bool (inject_Z FIX_UNASSIGNED_MIN_PERCENT / 100)%Q
          (pct_assigned num_unassigned total)).

(** The second part of the search: the unassigned units on the edge that
    touch a district go to the touching district of least comparator
    value. *)
Definition adjacency (unassigned_ids : list Z) (unassigned_geom : GEOSGeometry)
    (districts_ : list District) (to_add : list (Z * (Z * Q))) : list (Z * (Z * Q)) :=
  let unassigned := filter (fun u => mem_Z (gu_id u) unassigned_ids) catalog in
  (* Remove any unassigned geounits that aren't on the edge *)
  let temp :=
    fold_left (fun temp poly =>
      fold_left (fun temp g =>
        if negb (mem_Z (gu_id g) (map gu_id temp))
           && geos_intersects (gu_geom g) unassigned_geom
        then temp ++ [g] else temp) unassigned temp)
      (members unassigned_geom) [] in
  let unassigned := temp in
  fold_left (fun to_add district =>
    let dist_val := comparator_value district in
    fold_left (fun to_add poly =>
      fold_left (fun to_add geounit =>
        if geos_touches (gu_geom geounit) (exterior poly) then
          match dict_get (gu_id geounit) to_add with
          | None => dict_set (gu_id geounit) (d_district_id district, dist_val) to_add
          | Some old =>
              if negb (Qle_bool (snd old) dist_val)
              then dict_set (gu_id geounit) (d_district_id district, dist_val) to_add
              else to_add
          end
        else to_add) unassigned to_add)
      (polys district) to_add)
    districts_ to_add.

(** What the search for units to fix ends with: an early return of
    [fix_unassigned], or the dictionary [to_add] and [num_unassigned]. *)
Inductive search : Type :=
| GiveUp (m : message)
| ToAdd (to_add : list (Z * (Z * Q))) (num_unassigned : Z).

(** The search of [fix_unassigned], up to the comment
    "Add all geounits that need to be fixed". *)
Definition find_fixes (db : DB) (self : Plan) (version threshold : Z) : outcome search :=
  let num_unassigned := 0 in
  let geolevel := lb_base_geolevel (p_legislative_body self) in
  (* Check that there are unassigned geounits to fix *)
  unassigned_district <-
    get_one (filter (fun d => (d_district_id d =? 0) && (d_version d =? version))
               (district_set db self)) ;;
  match d_geom unassigned_district with
  | None => Return (GiveUp NoUnassignedUnits)
  | Some unassigned_geom =>
      if negb (truthy (Some unassigned_geom)) || empty unassigned_geom then
        Return (GiveUp NoUnassignedUnits)
      else
        let districts_ := unlocked_districts db self version in
        let to_add := hole_fills self threshold unassigned_geom districts_ in
        (* Check if all districts have been assigned *)
        let num_districts :=
          Z.of_nat (List.length (get_districts_at_version db self version)) - 1 in
        let not_all_districts_assigned :=
          num_districts <? lb_max_districts (p_legislative_body self) in
        if not_all_districts_assigned && match to_add with [] => true | _ => false end
        then Return (GiveUp (AllDistrictsNeeded num_districts))
        else if negb not_all_districts_assigned then
          unassigned <- get_unassigned_geounits db self threshold version ;;
          let unassigned := map fst unassigned in
          let num_unassigned := Z.of_nat (List.length unassigned) in
          let unassigned :=
            filter (fun u => negb (mem_Z u (map fst to_add))) (nodup Z.eq_dec unassigned) in
          let total := num_total_units geolevel in
          if total =? 0 then Raise ZeroDivisionError
          else
            let below := below_min_pct num_unassigned total in
            if below && match to_add with [] => true | _ => false end then
              Return (GiveUp (PercentageTooLow
                                (Z.quot (Qnum (pct_assigned num_unassigned total * 100)%Q)
                                   (Z.pos (Qden (pct_assigned num_unassigned total * 100)%Q)))
                                FIX_UNASSIGNED_MIN_PERCENT))
            else if negb below then
              Return (ToAdd (adjacency unassigned unassigned_geom districts_ to_add)
                        num_unassigned)
            else Return (ToAdd to_add num_unassigned)
        else Return (ToAdd to_add num_unassigned)
  end.

(** [district_units]: the units to add, by district. *)
Definition district_units (to_add : list (Z * (Z * Q))) : list (Z * list Z) :=
  fold_left (fun units item =>
    let gid := fst item in
    let did := fst (snd item) in
    match dict_get did units with
    | Some l => dict_set did (l ++ [gid]) units
    | None => dict_set did [gid] units
    end) to_add [].

(** The loop of the calls of [add_geounits], one for each district. *)
Fixpoint add_fixes (self : Plan) (units : list (Z * list Z)) (geolevel version : Z)
    (db : DB) : (outcome unit * Plan) * DB :=
  match units with
  | [] => ((Return tt, self), db)
  | (did, gids) :: rest =>
      match add_geounits self did gids geolevel version true db with
      | ((Return _, self), db) => add_fixes self rest geolevel (p_version self) db
      | ((Raise e, self), db) => ((Raise e, self), db)
      end
  end.

(** The versions made in between become the current one, so that a single
    undo undoes the entire set of fixes. *)
Definition compact_fixes (self : Plan) (num_adds : Z) (db : DB) : DB :=
  if 1 <? num_adds then
    let in_range (v : Z) :=
      (p_version self - num_adds + 1 <=? v) && (v <? p_version self) in
    let interim :=
      filter (fun d => (d_district_id d =? 0) && in_range (d_version d))
        (district_set db self) in
    let db := delete_districts db (pks_of interim) in
    fold_left (fun db dist => snd (district_save (set_d_version dist (p_version self)) db))
      (filter (fun d => in_range (d_version d)) (district_set db self)) db
  else db.

Definition fix_unassigned (self : Plan) (version : option Z) (threshold : Z) (db : DB)
    : (outcome (bool * message) * Plan) * DB :=
  let version := match version with None => p_version self | Some v => v end in
  let geolevel := lb_base_geolevel (p_legislative_body self) in
  match find_fixes db self version threshold with
  | Raise e => ((Raise e, self), db)
  | Return (GiveUp m) => ((Return (false, m), self), db)
  | Return (ToAdd to_add num_unassigned) =>
      match to_add with
      | [] => ((Return (false, NoneFixed), self), db)
      | _ =>
          let units := district_units to_add in
          match add_fixes self units geolevel version db with
          | ((Raise e, self), db) => ((Raise e, self), db)
          | ((Return _, self), db) =>
              let num_adds := Z.of_nat (List.length units) in
              let db := compact_fixes self num_adds db in
              let num_fixed := Z.of_nat (List.length to_add) in
              let num_remaining := num_unassigned - num_fixed in
              ((Return (true, UnitsFixed num_fixed
                                (if 0 <? num_remaining then Some num_remaining else None)),
                self), db)
          end
      end
  end.

(** *** Predicates of the further properties *)

(** The test of the sub-query of [get_districts_at_version]: the row is not
    above the version, and no row of its district is above it and not above
    the version. *)
Definition latest_at (rows : list District) (version : Z) (d : District) : bool :=
  (d_version d <=? version) &&
  forallb (fun e => negb ((d_district_id e =? d_district_id d)
                          && (d_version e <=? version)
                          && (d_version d <? d_version e))) rows.

(** The rows that [purge(before=V)] deletes. *)
Definition superseded_before (ds : list District) (r : District) : bool :=
  existsb (fun d => (d_district_id r =? d_district_id d)
                    && (d_version r <? d_version d)) ds.


(** *** Plan.get_available_districts *)

(** [d.has_geom], the column [geom is not null] of the query. *)
Definition has_geom (d : District) : bool :=
  match d_geom d with Some _ => true | None => false end.

(** The test [d.has_geom and not d.geom.empty and d.district_id > 0]. *)
Definition takes_slot (d : District) : bool :=
  has_geom d
  && match d_geom d with Some g => negb (empty g) | None => false end
  && (0 <? d_district_id d).

Definition get_available_districts (db : DB) (self : Plan) (version : option Z) : Z :=
  let version := match version with None => p_version self | Some v => v end in
  let current_districts := get_districts_at_version db self version in
  let available_districts := lb_max_districts (p_legislative_body self) in
  fold_left (fun available_districts d =>
               if takes_slot d then available_districts - 1 else available_districts)
    current_districts available_districts.

(** *** set_district_id *)

(** What the [pre_save] handler leaves: the [district_id] of the instance,
    or the [ValidationError] with the number it prints. *)
Inductive id_assignment : Type :=
| ValidationError (max_districts : Z)
| DistrictId (district_id : option Z).

(** [map(lambda d: d.district_id, filter(lambda d: True if d.has_geom else False, districts))] *)
Definition ids_in_use (db : DB) (plan_ : Plan) (version : Z) : list Z :=
  map d_district_id (filter has_geom (get_districts_at_version db plan_ version)).

(** [range(1, stop)] *)
Definition range_from_1 (stop : Z) : list Z :=
  map Z.of_nat (seq 1 (Z.to_nat (stop - 1))).

Definition set_district_id (db : DB) (plan_ : Plan) (district_id : option Z)
    (version : Z) : id_assignment :=
  match district_id with
  | None =>
      let ids := ids_in_use db plan_ version in
      let max_districts := lb_max_districts (p_legislative_body plan_) + 1 in
      if max_districts <=? Z.of_nat (List.length ids) then ValidationError max_districts
      else
        (* Find one not in use - 0 is unassigned *)
        DistrictId (find (fun i => negb (mem_Z i ids)) (range_from_1 (max_districts + 1)))
  | Some i => DistrictId (Some i)
  end.


(** The tables other than the computed characteristics are the same. *)
Definition same_but_computed (db db' : DB) : Prop :=
  plans db' = plans db /\ districts db' = districts db
  /\ comments db' = comments db /\ tags db' = tags db.

(** A code that writes to the computed characteristics only, whether it
    returns or raises. *)
Definition writes_computed_only {A : Type} (m : MDB A) : Prop :=
  forall db, same_but_computed db (snd (m db)).

(** The subject has characteristic values for the geounits. *)
Definition has_values (geounits : list Geounit) (subject : Subject) : bool :=
  match aggregate_number geounits subject with Some _ => true | None => false end.

(** The copies that [clone_relations_from] makes for the district of primary
    key [self_pk]. *)
Definition computed_copy (self_pk : Z) (c c' : ComputedCharacteristic) : Prop :=
  cc_subject c' = cc_subject c /\ cc_district c' = self_pk
  /\ cc_number c' = cc_number c /\ cc_percentage c' = cc_percentage c.

Definition comment_copy (self_pk : Z) (c c' : Comment) : Prop :=
  cmt_object_pk c' = self_pk /\ cmt_content_type c' = cmt_content_type c.

Definition tag_copy (self_pk : Z) (t t' : TaggedItem) : Prop :=
  ti_object_id t' = self_pk /\ ti_content_type t' = ti_content_type t.


(** The list [temp] of [fix_unassigned]: the unassigned geounits on the edge
    of the unassigned area. *)
Definition edge_units (unassigned_ids : list Z) (unassigned_geom : GEOSGeometry)
    : list Geounit :=
  fold_left (fun temp poly =>
    fold_left (fun temp g =>
      if negb (mem_Z (gu_id g) (map gu_id temp))
         && geos_intersects (gu_geom g) unassigned_geom
      then temp ++ [g] else temp)
      (filter (fun u => mem_Z (gu_id u) unassigned_ids) catalog) temp)
    (members unassigned_geom) [].

(** The test of one geounit against one polygon of a district. *)
Definition assign_touching (district : District) (poly : GEOSGeometry)
    (to_add : list (Z * (Z * Q))) (geounit : Geounit) : list (Z * (Z * Q)) :=
  if geos_touches (gu_geom geounit) (exterior poly) then
    match dict_get (gu_id geounit) to_add with
    | None =>
        dict_set (gu_id geounit) (d_district_id district, comparator_value district) to_add
    | Some old =>
        if negb (Qle_bool (snd old) (comparator_value district))
        then dict_set (gu_id geounit)
               (d_district_id district, comparator_value district) to_add
        else to_add
    end
  else to_add.

(** The unit has an entry, of a value that is not above [bound]. *)
Definition assigned_within (gid : Z) (bound : Q) (to_add : list (Z * (Z * Q))) : Prop :=
  exists did v, dict_get gid to_add = Some (did, v) /\ (v <= bound)%Q.


(** *** District.reset_stats *)

(** The body of the loop of [reset_stats] for one subject. *)
Definition reset_subject (self_pk : Z) (subject : Subject) : MDB bool :=
  cr <~ computed_get_or_create (s_id subject) self_pk ;;
  let computed := fst cr in
  let created := snd cr in
  if negb created then
    let computed := set_cc_number computed 0%Q in
    let computed := set_cc_percentage computed (Some 0%Q) in
    write (computed_save computed) ;;;
    ret true
  else ret false.

Fixpoint reset_loop (self_pk : Z) (subjects : list Subject) (changed : bool)
    : MDB bool :=
  match subjects with
  | [] => ret changed
  | subject :: subjects' =>
      c <~ reset_subject self_pk subject ;;
      reset_loop self_pk subjects' (c || changed)
  end.

(** [Subject.objects.all()] gives the rows of the subject table. *)
Definition reset_stats (self : District) : MDB bool :=
  self_pk <~ lift (pk_of self) ;;
  reset_loop self_pk subject_table false.

(** A computed characteristic as [reset_stats] leaves it. *)
Definition zeroed (c : ComputedCharacteristic) : Prop :=
  cc_number c = 0%Q /\ (cc_percentage c = None \/ cc_percentage c = Some 0%Q).

(** The versions that [fix_unassigned] made in between:
    [range(self.version - num_adds + 1, self.version)]. *)
Definition interim_version (self : Plan) (num_adds v : Z) : bool :=
  (p_version self - num_adds + 1 <=? v) && (v <? p_version self).


(** *** Plan.update_num_members *)

Definition set_d_num_members (d : District) (n : Z) : District :=
  mkDistrict (d_id d) (d_district_id d) (d_name d) (d_plan d) (d_geom d) (d_simple d)
    (d_version d) (d_is_locked d) n.

(** The copy that [update_num_members] saves. *)
Definition with_num_members (self : Plan) (district : District) (num_members : Z)
    : District :=
  set_d_id (set_d_num_members (set_d_version district (p_version self)) num_members) None.

Definition update_num_members (self : Plan) (district : District) (num_members : Z)
    : MDB unit :=
  (* Clone the district to a new version, with new num_members *)
  district_copy <~ run (district_save (with_num_members self district num_members)) ;;
  (* Clone the characteristics, comments and tags to this new version *)
  clone_relations_from district_copy district.


(** ** Properties *)

(** Propositional steps, with the kernel and the tables out of the way. *)
Ltac forget_world :=
  repeat match goal with
         | f : ?T |- _ =>
             lazymatch type of T with
             | Prop => fail
             | _ => clear f
             end
         end.
Ltac prop := forget_world; intuition.



(** The rows that [purge(after=V)] deletes. *)
Definition after_version (self : Plan) (V : Z) (d : District) : bool :=
  (d_plan d =? p_id self) && (V <? d_version d).


(** *** enforce_multi *)

Lemma enforce_multi_plain_components (sr : option Z) (s : shape) :
  body (enforce_multi_plain (Some (mkGeom sr s))) = MultiPolygon (enforce_multi_components s)
  \/ (exists ps, s = MultiPolygon ps /\ shape_empty s = false
                 /\ enforce_multi_plain (Some (mkGeom sr s)) = mkGeom sr s).
Proof.
  unfold enforce_multi_plain, empty; simpl.
  destruct s as [c | pts | p | ps | items]; simpl.
  - destruct c; left; reflexivity.
  - destruct pts; left; reflexivity.
  - destruct (polygon_empty p); left; reflexivity.
  - destruct (forallb polygon_empty ps) eqn:E.
    + left; reflexivity.
    + right; exists ps; auto.
  - destruct (forallb shape_empty items); left; reflexivity.
Qed.




(** *** Geounit.get_mixed_geounits *)

(** C4. With no boundary and [inside=True] the selector returns the empty
    list, whatever the units, the body and the level. *)
Theorem get_mixed_geounits_no_boundary_inside (geounit_ids : list Z)
    (legislative_body : LegislativeBody) (geolevel : Z) :
  get_mixed_geounits geounit_ids legislative_body geolevel None true = Return [].
Proof. reflexivity. Qed.



(** *** Plan.get_nth_previous_version *)

Lemma insert_desc_In (v x : Z) (l : list Z) :
  In x (insert_desc v l) <-> x = v \/ In x l.
Proof.
  induction l as [| y t IH]; simpl.
  - prop.
  - destruct (y <? v) eqn:E1; simpl; [prop |].
    destruct (y =? v) eqn:E2; simpl.
    + apply Z.eqb_eq in E2. subst. prop.
    + rewrite IH. prop.
Qed.

Lemma insert_desc_sorted (v : Z) (l : list Z) :
  StronglySorted Z.gt l -> StronglySorted Z.gt (insert_desc v l).
Proof.
  induction 1 as [| y t Hs IH Hall]; simpl.
  - constructor; [constructor | constructor].
  - destruct (y <? v) eqn:E1.
    + apply Z.ltb_lt in E1. constructor.
      * constructor; assumption.
      * constructor; [lia |].
        eapply Forall_impl; [| exact Hall]. simpl. intros; lia.
    + destruct (y =? v) eqn:E2.
      * constructor; assumption.
      * apply Z.ltb_ge in E1. apply Z.eqb_neq in E2.
        constructor; [exact IH |].
        apply Forall_forall. intros x Hx.
        apply insert_desc_In in Hx. destruct Hx as [-> | Hx]; [lia |].
        rewrite Forall_forall in Hall. apply Hall, Hx.
Qed.

Lemma stored_versions_sorted (db : DB) (self : Plan) :
  StronglySorted Z.gt (stored_versions db self).
Proof.
  unfold stored_versions.
  induction (map d_version (district_set db self)) as [| v l IH]; simpl.
  - constructor.
  - apply insert_desc_sorted, IH.
Qed.

Lemma stored_versions_In (db : DB) (self : Plan) (v : Z) :
  In v (stored_versions db self) <->
  exists d, In d (districts db) /\ d_plan d = p_id self /\ d_version d = v.
Proof.
  unfold stored_versions, district_set.
  set (rows := filter _ _).
  assert (H : In v (fold_right insert_desc [] (map d_version rows))
              <-> In v (map d_version rows)).
  { induction (map d_version rows) as [| x l IH]; simpl; [prop |].
    rewrite insert_desc_In, IH. prop. }
  rewrite H, in_map_iff. subst rows.
  split.
  - intros (d & Hv & Hd). apply filter_In in Hd. destruct Hd as [Hd Hp].
    apply Z.eqb_eq in Hp. eauto.
  - intros (d & Hd & Hp & Hv). exists d. split; [exact Hv |].
    apply filter_In. split; [exact Hd | apply Z.eqb_eq, Hp].
Qed.

(** C7. The stored versions of the districts of the plan are enumerated
    without repetition, greatest first; for a step count [n >= 0] the result
    is the n-th of them, and 0 when there are [n] or fewer. *)
Theorem get_nth_previous_version_spec (db : DB) (self : Plan) (n : Z) :
  0 <= n ->
  StronglySorted Z.gt (stored_versions db self)
  /\ (forall v, In v (stored_versions db self) <->
        exists d, In d (districts db) /\ d_plan d = p_id self /\ d_version d = v)
  /\ get_nth_previous_version db self n
     = Return (nth (Z.to_nat n) (stored_versions db self) 0)
  /\ (Z.of_nat (List.length (stored_versions db self)) <= n ->
      get_nth_previous_version db self n = Return 0).
Proof.
  intros Hn. split; [apply stored_versions_sorted |].
  split; [apply stored_versions_In |].
  unfold get_nth_previous_version.
  destruct (n <? Z.of_nat (List.length (stored_versions db self))) eqn:E.
  - assert (En : (n <? 0) = false) by (apply Z.ltb_ge; exact Hn).
    rewrite En. split; [reflexivity |].
    apply Z.ltb_lt in E. intros; lia.
  - apply Z.ltb_ge in E. split; [| reflexivity].
    rewrite nth_overflow; [reflexivity | lia].
Qed.

(** *** Plan.purge *)

Lemma mem_pks_of (k : Z) (l : list District) :
  mem_Z k (pks_of l) = existsb (fun d => has_pk k (d_id d)) l.
Proof.
  unfold mem_Z, pks_of.
  induction l as [| d t IH]; simpl; [reflexivity |].
  rewrite existsb_app, IH. f_equal.
  destruct (d_id d) as [i |]; simpl; [| reflexivity].
  rewrite orb_false_r. apply Z.eqb_sym.
Qed.

Lemma existsb_filter {A : Type} (f g : A -> bool) (l : list A) :
  existsb f (filter g l) = existsb (fun x => g x && f x) l.
Proof.
  induction l as [| x t IH]; simpl; [reflexivity |].
  destruct (g x); simpl; rewrite IH; reflexivity.
Qed.

Lemma filter_twice {A : Type} (f g : A -> bool) (l : list A) :
  filter f (filter g l) = filter (fun x => g x && f x) l.
Proof.
  induction l as [| x t IH]; simpl; [reflexivity |].
  destruct (g x); simpl; [destruct (f x) |]; rewrite IH; reflexivity.
Qed.

(** In a keyed table a row is among the rows selected by [sel] exactly when
    its primary key is among theirs. *)
Lemma pk_in_selected (db : DB) (sel : District -> bool) (d : District) :
  keyed db -> In d (districts db) ->
  pk_in (pks_of (filter sel (districts db))) (d_id d) = sel d.
Proof.
  intros Hk Hd. unfold pk_in.
  destruct (d_id d) as [k |] eqn:Ek.
  - rewrite mem_pks_of, existsb_filter.
    destruct (sel d) eqn:Es.
    + apply existsb_exists. exists d. split; [exact Hd |].
      rewrite Es, Ek. simpl. apply Z.eqb_refl.
    + apply not_true_is_false. intros H. apply existsb_exists in H.
      destruct H as (e & He & H). apply andb_true_iff in H. destruct H as [Hs Hp].
      unfold has_pk in Hp. destruct (d_id e) as [j |] eqn:Ej; [| discriminate].
      apply Z.eqb_eq in Hp. subst j.
      destruct (Hk d e Hd He) as [_ Heq]; [congruence |]. subst e. congruence.
  - destruct (Hk d d Hd Hd eq_refl) as [Hn _]. congruence.
Qed.

Lemma purge_after_pks (db : DB) (self : Plan) (V : Z) :
  pks_of (filter (fun r => V <? d_version r) (district_set db self))
  = pks_of (filter (after_version self V) (districts db)).
Proof.
  unfold district_set, after_version. rewrite filter_twice. reflexivity.
Qed.

Lemma purge_after_districts (db : DB) (self : Plan) (V : Z) :
  keyed db ->
  districts (purge db self None (Some V))
  = filter (fun d => negb (after_version self V d)) (districts db).
Proof.
  intros Hk. unfold purge, delete_districts. simpl.
  rewrite purge_after_pks.
  apply filter_ext_in. intros d Hd.
  rewrite (pk_in_selected db (after_version self V) d Hk Hd). reflexivity.
Qed.

Lemma purge_plans (db : DB) (self : Plan) (before after : option Z) :
  plans (purge db self before after) = plans db
  /\ next_pk (purge db self before after) = next_pk db.
Proof.
  unfold purge.
  destruct before as [b |], after as [a |]; simpl; auto;
    destruct (b <=? 0); simpl; auto.
Qed.

(** C6. [purge(after=V)] deletes the district rows of the plan whose version
    is greater than [V] and no other row, with the comments, the tags and
    the computed characteristics bound to the deleted rows; and
    [add_geounits], once the target is known not to be locked, runs this
    purge at the version of the call on the database as it found it, before
    the code that writes the new rows. *)
Theorem purge_after_spec (db : DB) (self : Plan) (V : Z) :
  keyed db ->
  let deleted := pks_of (filter (after_version self V) (districts db)) in
  districts (purge db self None (Some V))
    = filter (fun d => negb (after_version self V d)) (districts db)
  /\ comments (purge db self None (Some V))
    = filter (fun c => negb (mem_Z (cmt_object_pk c) deleted
                            && is_ct_district (cmt_content_type c))) (comments db)
  /\ tags (purge db self None (Some V))
    = filter (fun t => negb (mem_Z (ti_object_id t) deleted
                            && is_ct_district (ti_content_type t))) (tags db)
  /\ computed (purge db self None (Some V))
    = filter (fun c => negb (mem_Z (cc_district c) deleted)) (computed db)
  /\ plans (purge db self None (Some V)) = plans db
  /\ (forall districtid geounit_ids geolevel keep_old_versions incremental locked,
        target_is_locked (get_districts_at_version db self V) districtid = false ->
        remove_locked
          (unionagg (map gu_geom
                       (filter (fun u => mem_Z (gu_id u) geounit_ids) catalog)))
          (collect_locked db (get_districts_at_version db self V))
          = Return (incremental, locked) ->
        add_geounits_body self districtid geounit_ids geolevel V keep_old_versions db
        = add_geounits_edit self districtid geounit_ids geolevel keep_old_versions
            incremental locked (get_districts_at_version db self V) false
            (purge db self None (Some V))).
Proof.
  intros Hk deleted. split; [apply purge_after_districts, Hk |].
  subst deleted. rewrite <- purge_after_pks.
  split; [reflexivity |]. split; [reflexivity |]. split; [reflexivity |].
  split; [reflexivity |].
  intros districtid geounit_ids geolevel keep incremental locked Hl Hr.
  unfold add_geounits_body. rewrite Hl, Hr. reflexivity.
Qed.

(** *** Plan.add_geounits *)

(** C2. When the district of the target id is locked at the version of the
    call, [add_geounits] returns [False]; the database and the plan object
    are what they were. *)
Theorem add_geounits_locked_target (db : DB) (self : Plan) (districtid : Z)
    (geounit_ids : list Z) (geolevel version : Z) (keep_old_versions : bool) :
  target_is_locked (get_districts_at_version db self version) districtid = true ->
  add_geounits self districtid geounit_ids geolevel version keep_old_versions db
  = ((Return false, self), db).
Proof.
  intros H. unfold add_geounits, commit_on_success, add_geounits_body.
  rewrite H. reflexivity.
Qed.






(** *** District.delta_stats *)

Lemma insert_by_In {A : Type} (le : A -> A -> bool) (a x : A) (l : list A) :
  In x (insert_by le a l) <-> x = a \/ In x l.
Proof.
  induction l as [| y t IH]; simpl; [prop |].
  destruct (le a y); simpl; [prop |].
  rewrite IH. prop.
Qed.









(** *** Plan.paste_districts *)

Lemma count_allowed_occupied (ds : list District) (allowed : Z) :
  Forall (fun d => d_district_id d = 0 \/ d_geom d <> None) ds ->
  count_allowed ds allowed
  = Return (allowed - Z.of_nat (List.length (filter occupied ds))).
Proof.
  intros H. revert allowed.
  induction H as [| d t Hd Ht IH]; intros allowed; simpl.
  - f_equal. lia.
  - unfold occupied at 1.
    destruct (d_district_id d =? 0) eqn:E; simpl.
    + rewrite IH. f_equal. lia.
    + destruct (d_geom d) as [g |].
      * destruct (empty g); simpl; rewrite IH; f_equal; lia.
      * destruct Hd as [Hd | Hd]; [apply Z.eqb_neq in E |]; contradiction.
Qed.

(** Where every district of the version has a geometry, the capacity check
    of [paste_districts] is the one of the specification: the paste fails,
    with the database and the plan as they were, when the slots in use
    reach [max_districts + 1], and goes on to paste otherwise. *)
Lemma paste_districts_capacity (self : Plan) (districts_ : list District)
    (version : option Z) (db : DB) :
  let v := match version with None => p_version self | Some v => v end in
  Forall (fun d => d_district_id d = 0 \/ d_geom d <> None)
    (get_districts_at_version db self v) ->
  (lb_max_districts (p_legislative_body self) + 1 <= occupied_slots db self v ->
   paste_districts self districts_ version db = ((Raise too_many, self), db))
  /\ (occupied_slots db self v < lb_max_districts (p_legislative_body self) + 1 ->
      paste_districts self districts_ version db = paste_all self districts_ v db).
Proof.
  intros v Hg. unfold paste_districts. fold v.
  rewrite (count_allowed_occupied _ _ Hg). fold (occupied_slots db self v).
  split; intros H.
  - assert (E : (lb_max_districts (p_legislative_body self) + 1
                 - occupied_slots db self v <=? 0) = true) by (apply Z.leb_le; lia).
    rewrite E. reflexivity.
  - assert (E : (lb_max_districts (p_legislative_body self) + 1
                 - occupied_slots db self v <=? 0) = false) by (apply Z.leb_gt; lia).
    rewrite E. reflexivity.
Qed.

(** A district other than Unassigned with no geometry makes the count of
    the slots fail on [d.geom.empty]. *)
Lemma count_allowed_null_geometry (ds : list District) (allowed : Z) :
  Exists (fun d => d_district_id d <> 0 /\ d_geom d = None) ds ->
  count_allowed ds allowed = Raise AttributeError.
Proof.
  intros H. revert allowed.
  assert (Hd : forall d, (d_district_id d <> 0 /\ d_geom d = None)
                        \/ ~ (d_district_id d <> 0 /\ d_geom d = None)).
  { intros d. destruct (Z.eq_dec (d_district_id d) 0); [right; prop |].
    destruct (d_geom d); [right; intros [_ ?]; discriminate | left; auto]. }
  induction ds as [| d t IH]; intros allowed; [inversion H |].
  simpl. destruct (Hd d) as [[Hn Hg] | Hno].
  - apply Z.eqb_neq in Hn. rewrite Hn, Hg. reflexivity.
  - assert (Ht : Exists (fun d => d_district_id d <> 0 /\ d_geom d = None) t)
      by (inversion H; [contradiction | assumption]).
    destruct (d_district_id d =? 0); [apply IH, Ht |].
    destruct (d_geom d) as [g |]; [| reflexivity].
    destruct (negb (empty g)); apply IH, Ht.
Qed.

(** *** Plan.fix_unassigned *)

(** Below the minimum percentage the search ends with the units of the
    first loop and no other: the adjacency step is not run.  With no such
    unit it gives up with a message. *)
Lemma find_fixes_below_min (db : DB) (self : Plan) (version threshold : Z)
    (unassigned_district : District) (unassigned_geom : GEOSGeometry)
    (unassigned : list (Z * string)) :
  get_one (filter (fun d => (d_district_id d =? 0) && (d_version d =? version))
             (district_set db self)) = Return unassigned_district ->
  d_geom unassigned_district = Some unassigned_geom ->
  negb (truthy (Some unassigned_geom)) || empty unassigned_geom = false ->
  get_unassigned_geounits db self threshold version = Return unassigned ->
  num_total_units (lb_base_geolevel (p_legislative_body self)) <> 0 ->
  below_min_pct (Z.of_nat (List.length unassigned))
    (num_total_units (lb_base_geolevel (p_legislative_body self))) = true ->
  let to_add := hole_fills self threshold unassigned_geom
                  (unlocked_districts db self version) in
  match to_add with
  | [] => exists m, find_fixes db self version threshold = Return (GiveUp m)
  | _ => exists n, find_fixes db self version threshold = Return (ToAdd to_add n)
  end.
Proof.
  intros Hget Hgeom Hok Hun Htot Hbelow to_add.
  unfold find_fixes. rewrite Hget. cbn [bind]. rewrite Hgeom, Hok.
  fold to_add.
  rewrite Hun. cbn [bind]. rewrite length_map.
  apply Z.eqb_neq in Htot. rewrite Htot, Hbelow.
  destruct to_add as [| x t] eqn:E.
  - rewrite andb_true_r.
    destruct (_ <? lb_max_districts _); cbn [negb andb]; eexists; reflexivity.
  - rewrite !andb_false_r.
    destruct (_ <? lb_max_districts _); cbn [negb andb]; eexists; reflexivity.
Qed.

(** With nothing to add [fix_unassigned] returns [False] and a message; the
    plan and the database are what they were. *)
Lemma fix_unassigned_gives_up (db : DB) (self : Plan) (version : option Z)
    (threshold : Z) (m : message) :
  find_fixes db self (match version with None => p_version self | Some v => v end)
    threshold = Return (GiveUp m) ->
  fix_unassigned self version threshold db = ((Return (false, m), self), db).
Proof.
  intros H. unfold fix_unassigned. rewrite H. reflexivity.
Qed.

(** When no row of the Unassigned district has the version of the call,
    the lookup at the start of [fix_unassigned] raises. *)
Lemma fix_unassigned_no_row (db : DB) (self : Plan) (version : option Z)
    (threshold : Z) :
  let v := match version with None => p_version self | Some v => v end in
  filter (fun d => (d_district_id d =? 0) && (d_version d =? v))
    (district_set db self) = [] ->
  fix_unassigned self version threshold db = ((Raise DoesNotExist, self), db).
Proof.
  intros v H. unfold fix_unassigned, find_fixes. fold v. rewrite H. reflexivity.
Qed.

(** ** Further properties *)

(** *** Permissions and orderings *)

(** X1. Whoever can edit a plan can copy it, and a plan that someone can
    edit is not open to view: a shared plan or a template is edited by no
    one, staff included. *)
Theorem can_edit_implies_copy_not_view (user : User) (plan : PlanAccess) :
  can_edit user plan = true ->
  can_copy user plan = true /\ can_view user plan = false
  /\ (forall other, can_view other plan = false).
Proof.
  unfold can_edit, can_copy, can_view. intros H.
  apply andb_true_iff in H. destruct H as [H Hs].
  apply andb_true_iff in H. destruct H as [Ho Ht].
  apply negb_true_iff in Hs. apply negb_true_iff in Ht.
  rewrite Hs, Ht. simpl. split; [exact Ho |]. split; [reflexivity |].
  intros _. reflexivity.
Qed.

(** X2. [sortVer] orders the rows by district and then by version as long
    as the versions are below 10000: the key of a row is less than the key of
    another exactly when its district id is less, or the ids are equal and
    its version is less. *)
Theorem sortVer_lexicographic (a b : District) :
  0 <= d_version a < 10000 -> 0 <= d_version b < 10000 ->
  (sortVer a < sortVer b <->
   d_district_id a < d_district_id b
   \/ (d_district_id a = d_district_id b /\ d_version a < d_version b)).
Proof. unfold sortVer. intros Ha Hb. lia. Qed.

(** *** Plan.get_biggest_geolevel *)

Lemma biggest_fold (levels : list Geolevel) (g0 : Geolevel) :
  let g := fold_left (fun geolevel l =>
                        if gl_min_zoom l <? gl_min_zoom geolevel then l else geolevel)
             levels g0 in
  (g = g0 \/ In g levels)
  /\ gl_min_zoom g <= gl_min_zoom g0
  /\ (forall l, In l levels -> gl_min_zoom g <= gl_min_zoom l).
Proof.
  revert g0. induction levels as [| x t IH]; intros g0; simpl.
  - split; [left; reflexivity |]. split; [lia |]. intros l [].
  - destruct (gl_min_zoom x <? gl_min_zoom g0) eqn:E.
    + apply Z.ltb_lt in E. destruct (IH x) as (Hin & Hle & Hall).
      split; [right; destruct Hin as [-> | Hin]; [left; reflexivity | right; exact Hin] |].
      split; [lia |].
      intros l [<- | Hl]; [exact Hle | apply Hall, Hl].
    + apply Z.ltb_ge in E. destruct (IH g0) as (Hin & Hle & Hall).
      split; [destruct Hin as [-> | Hin]; [left; reflexivity | right; right; exact Hin] |].
      split; [exact Hle |].
      intros l [<- | Hl]; [lia | apply Hall, Hl].
Qed.

(** X3. [get_biggest_geolevel] raises on a body with no level; otherwise it
    returns one of the levels of the body, and no level of the body has a
    lesser minimum zoom. *)
Theorem get_biggest_geolevel_least_zoom (leg_levels : list Geolevel) :
  (leg_levels = [] -> get_biggest_geolevel leg_levels = Raise IndexError)
  /\ (leg_levels <> [] ->
      exists g, get_biggest_geolevel leg_levels = Return g
                /\ In g leg_levels
                /\ forall l, In l leg_levels -> gl_min_zoom g <= gl_min_zoom l).
Proof.
  split; [intros ->; reflexivity |].
  destruct leg_levels as [| l0 t]; [intros H; contradiction |]. intros _.
  eexists. split; [reflexivity |].
  destruct (biggest_fold (l0 :: t) l0) as (Hin & _ & Hall).
  split; [| exact Hall].
  destruct Hin as [-> | Hin]; [left; reflexivity | exact Hin].
Qed.

(** *** District.simplify *)

Lemma simples_nth (geom : GEOSGeometry) (levels : list Geolevel) (index : Z) :
  increasing_from index levels ->
  forall level, In level levels ->
    nth_error (simples geom levels index) (Z.to_nat (gl_id level - index))
    = Some (body (if 0 <? num_coords geom
                  then geos_simplify geom (gl_tolerance level) else geom)).
Proof.
  revert index. induction levels as [| l t IH]; intros index Hinc level Hin;
    [contradiction |].
  destruct Hinc as [Hle Hinc]. simpl.
  assert (Hmax : Z.max index (gl_id l) = gl_id l) by lia. rewrite Hmax.
  set (k := Z.to_nat (gl_id l - index)).
  assert (Hk : List.length (repeat (Point (Some (0, 0))) k) = k)
    by apply repeat_length.
  destruct Hin as [<- | Hin].
  - rewrite nth_error_app2; rewrite Hk; [| lia].
    rewrite Nat.sub_diag. reflexivity.
  - assert (Hge : gl_id l + 1 <= gl_id level).
    { clear - Hinc Hin. revert Hinc. generalize (gl_id l + 1).
      induction t as [| x t IHt]; intros z Hz; [contradiction |].
      destruct Hz as [Hz Hz']. destruct Hin as [<- | Hin]; [exact Hz |].
      specialize (IHt Hin _ Hz'). lia. }
    rewrite nth_error_app2; rewrite Hk; [| unfold k; lia].
    replace (Z.to_nat (gl_id level - index) - k)%nat
      with (S (Z.to_nat (gl_id level - (gl_id l + 1)))) by (unfold k; lia).
    simpl. apply IH; assumption.
Qed.

(** X4. When the ids of the levels grow from the base level up and start at
    1 or more, [simplify] stores the simplified geometry of each level at the
    position of the id of the level (counted from 1), with points at the
    origin in the positions that no level has: the id of a level is the
    index of its geometry in [simple]. *)
Theorem simplify_level_index (body_ : LegislativeBody) (self : District)
    (geom : GEOSGeometry) (db : DB) (level : Geolevel) :
  d_geom self = Some geom ->
  increasing_from 1 (rev (lb_geolevels body_)) ->
  In level (lb_geolevels body_) ->
  exists items,
    d_simple (fst (simplify body_ self db))
    = Some (mkGeom (srid geom) (GeometryCollection items))
    /\ nth_error items (Z.to_nat (gl_id level - 1))
       = Some (body (if 0 <? num_coords geom
                     then geos_simplify geom (gl_tolerance level) else geom)).
Proof.
  intros Hg Hinc Hin. unfold simplify. rewrite Hg.
  exists (simples geom (rev (lb_geolevels body_)) 1). split.
  - unfold district_save. simpl.
    destruct (d_id self) as [pk |]; simpl; [| reflexivity].
    destruct (existsb _ _); reflexivity.
  - apply simples_nth; [exact Hinc | apply in_rev in Hin; exact Hin].
Qed.

(** *** enforce_multi, again *)





(** *** Geounit.get_mixed_geounits, again *)

Lemma mixed_loop_not_searching (geounit_ids : list Z) (geolevel : Z) (inside : bool)
    (base_geolevel : Geolevel) (levels : list Geolevel)
    (selection boundary : option GEOSGeometry) (units : list Geounit) :
  Forall (fun l => gl_id l <> geolevel) levels ->
  mixed_loop geounit_ids geolevel inside base_geolevel levels
    false selection boundary units = Return units.
Proof.
  induction 1 as [| level levels' Hne Hl IH]; [reflexivity |].
  simpl. destruct (geolevel =? gl_id level) eqn:E.
  - apply Z.eqb_eq in E. congruence.
  - exact IH.
Qed.

(** X6. When no level of the body has the id of the requested level, the
    selector selects nothing and says nothing: it returns the empty list
    (unless the body has no level at all, where it raises). *)
Theorem get_mixed_geounits_unknown_level (geounit_ids : list Z)
    (legislative_body : LegislativeBody) (geolevel : Z)
    (boundary : option GEOSGeometry) (inside : bool) :
  Forall (fun l => gl_id l <> geolevel) (lb_geolevels legislative_body) ->
  get_mixed_geounits geounit_ids legislative_body geolevel boundary inside
  = match lb_geolevels legislative_body with
    | [] => if negb (truthy boundary) && inside then Return [] else Raise IndexError
    | _ => Return []
    end.
Proof.
  intros H. unfold get_mixed_geounits.
  destruct (negb (truthy boundary) && inside);
    [destruct (lb_geolevels legislative_body); reflexivity |].
  destruct (lb_geolevels legislative_body) as [| l t] eqn:El; [reflexivity |].
  unfold last_level.
  destruct (rev (l :: t)) as [| b r] eqn:Er.
  - apply (f_equal (@List.length _)) in Er. rewrite length_rev in Er. discriminate.
  - cbn [bind]. apply mixed_loop_not_searching, H.
Qed.

Lemma query_rows_In (sel : Geounit -> bool) (u : Geounit) :
  In u (map row_geounit (filter sel catalog)) ->
  exists c, In c catalog /\ sel c = true /\ u = row_geounit c.
Proof.
  intros H. apply in_map_iff in H. destruct H as (c & <- & Hc).
  apply filter_In in Hc. destruct Hc as [Hc Hs]. exists c. auto.
Qed.

Lemma mem_Z_In (x : Z) (l : list Z) : mem_Z x l = true <-> In x l.
Proof.
  unfold mem_Z. rewrite existsb_exists. split.
  - intros (y & Hy & E). apply Z.eqb_eq in E. subst. exact Hy.
  - intros H. exists x. split; [exact H | apply Z.eqb_refl].
Qed.

Lemma mixed_loop_provenance (geounit_ids : list Z) (geolevel : Z) (inside : bool)
    (base_geolevel : Geolevel) (all_levels : list Geolevel) (P : Geounit -> Prop) :
  (forall c, In c catalog ->
     In (gu_id c) geounit_ids
     \/ (exists level, In level all_levels /\ gu_geolevel_id c = gl_id level
                       /\ gl_id level <> geolevel) ->
     P (row_geounit c)) ->
  forall levels searching selection boundary units units',
    incl levels all_levels ->
    Forall P units ->
    mixed_loop geounit_ids geolevel inside base_geolevel levels
      searching selection boundary units = Return units' ->
    Forall P units'.
Proof.
  intros HP. induction levels as [| level levels' IH];
    intros searching selection boundary units units' Hincl Hu H.
  - simpl in H. injection H as <-. exact Hu.
  - assert (Hincl' : incl levels' all_levels)
      by (intros x Hx; apply Hincl; right; exact Hx).
    assert (Hlevel : In level all_levels) by (apply Hincl; left; reflexivity).
    simpl in H. destruct (geolevel =? gl_id level) eqn:E.
    + destruct (query_selected geounit_ids inside (same_level level base_geolevel) _)
        as [rows | e] eqn:Eq; [| discriminate].
      cbn [bind] in H.
      assert (Hrows : Forall P (units ++ rows)).
      { apply Forall_app. split; [exact Hu |].
        unfold query_selected in Eq.
        destruct geounit_ids as [| i ids] eqn:Ei; [discriminate |].
        injection Eq as <-. apply Forall_forall. intros u Hin.
        apply query_rows_In in Hin. destruct Hin as (c & Hc & Hs & ->).
        apply andb_true_iff in Hs. destruct Hs as [Hm _].
        apply HP; [exact Hc |]. left. apply mem_Z_In, Hm. }
      destruct (same_level level base_geolevel).
      * injection H as <-. exact Hrows.
      * eapply IH; eauto.
    + destruct searching; [| eapply IH; eauto].
      destruct selection as [sel |]; [| discriminate].
      destruct boundary as [bnd |]; [| discriminate].
      destruct (unselected sel units) as [ix | e]; [| discriminate].
      cbn [bind] in H.
      destruct (try_except_GEOS _ _) as [rem | e]; [| discriminate].
      cbn [bind] in H.
      eapply IH; [exact Hincl' | | exact H].
      destruct (negb (empty _)); [| exact Hu].
      apply Forall_app. split; [exact Hu |].
      apply Forall_forall. intros u Hin. unfold query_level in Hin.
      apply query_rows_In in Hin. destruct Hin as (c & Hc & Hs & ->).
      apply andb_true_iff in Hs. destruct Hs as [Hm _]. apply Z.eqb_eq in Hm.
      apply HP; [exact Hc |]. right. exists level.
      apply Z.eqb_neq in E. auto.
Qed.

(** X7. Every unit that the selector returns is a row of the catalog (its
    id, parent, level and geometry) and either one of the selected units, or
    a unit of a level of the body other than the requested one. *)
Theorem get_mixed_geounits_provenance (geounit_ids : list Z)
    (legislative_body : LegislativeBody) (geolevel : Z)
    (boundary : option GEOSGeometry) (inside : bool) (units : list Geounit) :
  get_mixed_geounits geounit_ids legislative_body geolevel boundary inside
    = Return units ->
  forall u, In u units ->
    exists c, In c catalog /\ u = row_geounit c
      /\ (In (gu_id c) geounit_ids
          \/ exists level, In level (lb_geolevels legislative_body)
                           /\ gu_geolevel_id c = gl_id level
                           /\ gl_id level <> geolevel).
Proof.
  intros H. unfold get_mixed_geounits in H.
  destruct (negb (truthy boundary) && inside).
  - injection H as <-. intros u [].
  - destruct (last_level _) as [base | e]; [| discriminate]. cbn [bind] in H.
    apply Forall_forall.
    eapply (mixed_loop_provenance geounit_ids geolevel inside base
              (lb_geolevels legislative_body)); [| | | exact H].
    + intros c Hc Hor. exists c. auto.
    + apply incl_refl.
    + constructor.
Qed.


(** *** Plan.get_districts_at_version *)

Lemma sort_by_In {A : Type} (le : A -> A -> bool) (x : A) (l : list A) :
  In x (sort_by le l) <-> In x l.
Proof.
  unfold sort_by. induction l as [| a t IH]; simpl; [reflexivity |].
  rewrite insert_by_In, IH. split; intros [H | H]; auto.
Qed.

Lemma get_districts_at_version_latest (db : DB) (self : Plan) (version : Z) :
  get_districts_at_version db self version
  = sort_by (fun a b => String.leb (sortKey a) (sortKey b))
      (filter (latest_at (district_set db self) version) (district_set db self)).
Proof. reflexivity. Qed.

Lemma latest_at_spec (rows : list District) (version : Z) (d : District) :
  latest_at rows version d = true <->
  d_version d <= version
  /\ forall e, In e rows -> d_district_id e = d_district_id d ->
               d_version e <= version -> d_version e <= d_version d.
Proof.
  unfold latest_at. rewrite andb_true_iff, Z.leb_le, forallb_forall.
  split; intros [Hv Hall]; (split; [exact Hv |]).
  - intros e He Hd Hle. specialize (Hall e He). apply negb_true_iff in Hall.
    destruct (d_version d <? d_version e) eqn:E; [| apply Z.ltb_ge in E; exact E].
    apply Z.eqb_eq in Hd. apply Z.leb_le in Hle. rewrite Hd, Hle in Hall.
    discriminate.
  - intros e He. apply negb_true_iff.
    destruct (d_district_id e =? d_district_id d) eqn:E1; [| reflexivity].
    destruct (d_version e <=? version) eqn:E2; [| reflexivity].
    apply Z.eqb_eq in E1. apply Z.leb_le in E2.
    specialize (Hall e He E1 E2). simpl. apply Z.ltb_ge. exact Hall.
Qed.

Lemma district_set_In (db : DB) (self : Plan) (d : District) :
  In d (district_set db self) <-> In d (districts db) /\ d_plan d = p_id self.
Proof.
  unfold district_set. rewrite filter_In, Z.eqb_eq. reflexivity.
Qed.

(** Among the rows of a district that are not above a version, one has the
    greatest version. *)
Lemma greatest_row (rows : list District) (version : Z) (r : District) :
  In r rows -> d_version r <= version ->
  exists d, In d rows /\ d_district_id d = d_district_id r
            /\ d_version r <= d_version d /\ latest_at rows version d = true.
Proof.
  intros Hr Hv.
  assert (H : forall l, incl l rows ->
            forall c, In c rows -> d_district_id c = d_district_id r ->
                      d_version c <= version ->
            exists d, In d rows /\ d_district_id d = d_district_id r
                      /\ d_version c <= d_version d /\ d_version d <= version
                      /\ forall e, In e l -> d_district_id e = d_district_id d ->
                                   d_version e <= version -> d_version e <= d_version d).
  { induction l as [| x t IH]; intros Hincl c Hc Hcd Hcv.
    - exists c. repeat split; auto; try lia. intros e [].
    - assert (Hx : In x rows) by (apply Hincl; left; reflexivity).
      assert (Ht : incl t rows) by (intros y Hy; apply Hincl; right; exact Hy).
      destruct (Z.eq_dec (d_district_id x) (d_district_id r)) as [Exd | Exd].
      + destruct (Z_le_gt_dec (d_version x) version) as [Exv | Exv].
        * destruct (Z_le_gt_dec (d_version x) (d_version c)) as [Exc | Exc].
          -- destruct (IH Ht c Hc Hcd Hcv) as (d & Hd & Hdd & Hrd & Hdv & Hall).
             exists d. repeat split; auto.
             intros e [<- | He] Hed Hev; [lia | apply Hall; assumption].
          -- destruct (IH Ht x Hx Exd Exv) as (d & Hd & Hdd & Hrd & Hdv & Hall).
             exists d. repeat split; auto; try lia.
             intros e [<- | He] Hed Hev; [lia | apply Hall; assumption].
        * destruct (IH Ht c Hc Hcd Hcv) as (d & Hd & Hdd & Hrd & Hdv & Hall).
          exists d. repeat split; auto.
          intros e [<- | He] Hed Hev; [lia | apply Hall; assumption].
      + destruct (IH Ht c Hc Hcd Hcv) as (d & Hd & Hdd & Hrd & Hdv & Hall).
        exists d. repeat split; auto.
        intros e [<- | He] Hed Hev; [congruence | apply Hall; assumption]. }
  destruct (H rows (incl_refl _) r Hr eq_refl Hv)
    as (d & Hd & Hdd & Hrd & Hdv & Hall).
  exists d. repeat split; auto. apply latest_at_spec. auto.
Qed.

(** X8. [get_districts_at_version] gives the plan as of a version: each of
    its rows is a row of the plan, not above the version, and no row of the
    same district lies between it and the version; and every district of the
    plan that has a row at or below the version has a row in the result. *)
Theorem get_districts_at_version_as_of (db : DB) (self : Plan) (version : Z) :
  (forall d, In d (get_districts_at_version db self version) ->
     In d (districts db) /\ d_plan d = p_id self /\ d_version d <= version
     /\ forall e, In e (districts db) -> d_plan e = p_id self ->
                  d_district_id e = d_district_id d ->
                  d_version e <= version -> d_version e <= d_version d)
  /\ (forall r, In r (districts db) -> d_plan r = p_id self ->
        d_version r <= version ->
        exists d, In d (get_districts_at_version db self version)
                  /\ d_district_id d = d_district_id r
                  /\ d_version r <= d_version d).
Proof.
  rewrite get_districts_at_version_latest. split.
  - intros d Hd. apply sort_by_In in Hd. apply filter_In in Hd.
    destruct Hd as [Hd Hl]. apply district_set_In in Hd. destruct Hd as [Hd Hp].
    apply latest_at_spec in Hl. destruct Hl as [Hv Hall].
    repeat split; auto. intros e He Hep. apply Hall.
    apply district_set_In. auto.
  - intros r Hr Hp Hv.
    assert (Hrs : In r (district_set db self)) by (apply district_set_In; auto).
    destruct (greatest_row _ version r Hrs Hv) as (d & Hd & Hdd & Hrd & Hl).
    exists d. split; [| auto]. apply sort_by_In. apply filter_In. auto.
Qed.


(** *** Plan.purge, again *)

Lemma latest_at_filter (rows : list District) (keep : District -> bool) (W : Z) :
  (forall d, In d rows -> latest_at rows W d = true -> keep d = true) ->
  (forall e, In e rows -> keep e = false -> d_version e <= W ->
     exists x, In x rows /\ keep x = true /\ d_district_id x = d_district_id e
               /\ d_version e < d_version x /\ d_version x <= W) ->
  filter (latest_at (filter keep rows) W) (filter keep rows)
  = filter (latest_at rows W) rows.
Proof.
  intros Hkeep Hgone. rewrite filter_twice. apply filter_ext_in. intros d Hd.
  destruct (keep d) eqn:Ek; simpl.
  - destruct (latest_at rows W d) eqn:El.
    + apply latest_at_spec. apply latest_at_spec in El. destruct El as [Hv Hall].
      split; [exact Hv |]. intros e He. apply filter_In in He. apply Hall, He.
    + apply not_true_is_false. intros Hl. apply latest_at_spec in Hl.
      destruct Hl as [Hv Hall].
      assert (Hr : latest_at rows W d = true); [| congruence].
      apply latest_at_spec. split; [exact Hv |]. intros e He Hed Hev.
      destruct (keep e) eqn:Eke.
      * apply Hall; auto. apply filter_In. auto.
      * destruct (Hgone e He Eke Hev) as (x & Hx & Hkx & Hxd & Hlt & Hxv).
        assert (d_version x <= d_version d); [| lia].
        apply Hall; [apply filter_In; auto | congruence | exact Hxv].
  - symmetry. apply not_true_is_false. intros Hl.
    rewrite (Hkeep d Hd Hl) in Ek. discriminate.
Qed.

Lemma purge_before_district_set (db : DB) (self : Plan) (V : Z) (after : option Z) :
  keyed db -> 0 < V ->
  district_set (purge db self (Some V) after) self
  = filter (fun r => negb (superseded_before (get_districts_at_version db self V) r))
      (district_set db self).
Proof.
  intros Hk HV.
  assert (E : (V <=? 0) = false) by (apply Z.leb_gt; exact HV).
  set (ds := get_districts_at_version db self V).
  assert (Hp : districts (purge db self (Some V) after)
               = filter (fun d => negb ((d_plan d =? p_id self)
                                        && superseded_before ds d)) (districts db)).
  { unfold purge. destruct after; rewrite E; unfold delete_districts; simpl;
      apply filter_ext_in; intros d Hd; f_equal;
      (etransitivity;
       [| apply (pk_in_selected db
                   (fun d => (d_plan d =? p_id self) && superseded_before ds d)
                   d Hk Hd)]);
      unfold district_set; rewrite filter_twice; reflexivity. }
  unfold district_set at 1. rewrite Hp. unfold district_set.
  rewrite !filter_twice. apply filter_ext. intros d.
  destruct (d_plan d =? p_id self); simpl; [rewrite andb_true_r |]; reflexivity.
Qed.

Lemma superseded_before_spec (ds : list District) (r : District) :
  superseded_before ds r = true <->
  exists d, In d ds /\ d_district_id r = d_district_id d /\ d_version r < d_version d.
Proof.
  unfold superseded_before. rewrite existsb_exists. split.
  - intros (d & Hd & H). apply andb_true_iff in H. destruct H as [H1 H2].
    apply Z.eqb_eq in H1. apply Z.ltb_lt in H2. eauto.
  - intros (d & Hd & H1 & H2). exists d. split; [exact Hd |].
    apply andb_true_iff. split; [apply Z.eqb_eq | apply Z.ltb_lt]; assumption.
Qed.

Lemma In_at_version (db : DB) (self : Plan) (V : Z) (d : District) :
  In d (get_districts_at_version db self V) <->
  In d (district_set db self) /\ latest_at (district_set db self) V d = true.
Proof.
  rewrite get_districts_at_version_latest, sort_by_In, filter_In. reflexivity.
Qed.

Lemma purge_before_at_version (db : DB) (self : Plan) (V W : Z) (after : option Z) :
  keyed db -> V <= W ->
  get_districts_at_version (purge db self (Some V) after) self W
  = get_districts_at_version db self W.
Proof.
  intros Hk HVW.
  destruct (Z_le_gt_dec V 0) as [H0 | H0].
  - assert (E : (V <=? 0) = true) by (apply Z.leb_le; exact H0).
    unfold purge. destruct after; rewrite E; reflexivity.
  - rewrite !get_districts_at_version_latest.
    rewrite (purge_before_district_set db self V after Hk) by lia.
    f_equal. apply latest_at_filter.
    + intros d Hd Hl. apply negb_true_iff. apply not_true_is_false. intros Hs.
      apply superseded_before_spec in Hs. destruct Hs as (x & Hx & Hxd & Hlt).
      apply In_at_version in Hx. destruct Hx as [Hx Hxl].
      apply latest_at_spec in Hxl. destruct Hxl as [Hxv _].
      apply latest_at_spec in Hl. destruct Hl as [_ Hall].
      specialize (Hall x Hx (eq_sym Hxd)). lia.
    + intros e He Hke Hev. apply negb_false_iff in Hke.
      apply superseded_before_spec in Hke. destruct Hke as (x & Hx & Hxd & Hlt).
      apply In_at_version in Hx. destruct Hx as [Hx Hxl].
      exists x. split; [exact Hx |].
      pose proof Hxl as Hxl'. apply latest_at_spec in Hxl'. destruct Hxl' as [Hxv Hall].
      split; [| repeat split; auto; lia].
      apply negb_true_iff. apply not_true_is_false. intros Hs.
      apply superseded_before_spec in Hs. destruct Hs as (y & Hy & Hyd & Hlt').
      apply In_at_version in Hy. destruct Hy as [Hy Hyl].
      apply latest_at_spec in Hyl. destruct Hyl as [Hyv _].
      specialize (Hall y Hy (eq_sym Hyd) Hyv). lia.
Qed.

(** X9. [purge(before=V)] collapses the history before [V] and nothing
    else: the districts of the plan as of any version from [V] on are the
    same after the purge as before. *)
Theorem purge_before_keeps_later_versions (db : DB) (self : Plan) (V W : Z)
    (after : option Z) :
  keyed db -> V <= W ->
  get_districts_at_version (purge db self (Some V) after) self W
  = get_districts_at_version db self W.
Proof. apply purge_before_at_version. Qed.

Lemma purge_after_district_set (db : DB) (self : Plan) (V : Z) :
  keyed db ->
  district_set (purge db self None (Some V)) self
  = filter (fun r => negb (V <? d_version r)) (district_set db self).
Proof.
  intros Hk. unfold district_set at 1. rewrite (purge_after_districts db self V Hk).
  unfold district_set, after_version. rewrite !filter_twice. apply filter_ext.
  intros d. destruct (d_plan d =? p_id self); simpl;
    [rewrite andb_true_r |]; reflexivity.
Qed.

(** X10. [purge(after=V)] cuts the history after [V] and nothing else: no
    stored version of the plan is above [V] afterwards, and the districts
    of the plan as of any version up to [V] are the same as before. *)
Theorem purge_after_keeps_earlier_versions (db : DB) (self : Plan) (V W : Z) :
  keyed db -> W <= V ->
  get_districts_at_version (purge db self None (Some V)) self W
    = get_districts_at_version db self W
  /\ forall v, In v (stored_versions (purge db self None (Some V)) self) -> v <= V.
Proof.
  intros Hk HWV. split.
  - rewrite !get_districts_at_version_latest.
    rewrite (purge_after_district_set db self V Hk).
    f_equal. apply latest_at_filter.
    + intros d Hd Hl. apply latest_at_spec in Hl. destruct Hl as [Hv _].
      apply negb_true_iff, Z.ltb_ge. lia.
    + intros e He Hke Hev. apply negb_false_iff, Z.ltb_lt in Hke. lia.
  - intros v Hv. apply stored_versions_In in Hv.
    destruct Hv as (d & Hd & Hp & <-).
    rewrite (purge_after_districts db self V Hk) in Hd.
    apply filter_In in Hd. destruct Hd as [_ Hd].
    unfold after_version in Hd. apply Z.eqb_eq in Hp. rewrite Hp in Hd.
    simpl in Hd. apply negb_true_iff, Z.ltb_ge in Hd. exact Hd.
Qed.

(** *** Plan.get_nth_previous_version and Plan.purge_beyond_nth_step *)

Lemma sorted_nth_antitone (l : list Z) :
  StronglySorted Z.gt l -> Forall (fun v => 0 <= v) l ->
  forall i j, (i <= j)%nat -> 0 <= nth j l 0 <= nth i l 0.
Proof.
  induction 1 as [| x t Hs IH Hall]; intros Hpos i j Hij.
  - destruct i, j; simpl; lia.
  - inversion Hpos as [| ? ? Hx Ht]; subst.
    destruct j as [| j].
    + assert (i = 0%nat) by lia. subst. simpl. lia.
    + destruct i as [| i]; simpl.
      * destruct (Nat.lt_ge_cases j (List.length t)) as [Hj | Hj].
        -- assert (Hin : In (nth j t 0) t) by (apply nth_In; exact Hj).
           rewrite Forall_forall in Hall, Ht.
           specialize (Hall _ Hin). specialize (Ht _ Hin). lia.
        -- rewrite nth_overflow by exact Hj. lia.
      * apply IH; [exact Ht | lia].
Qed.

(** X11. The previous versions go down: for step counts [0 <= n <= m] the
    version [m] steps back is not above the version [n] steps back, and the
    result is 0 or the version of a stored row of the plan (versions are not
    negative). *)
Theorem get_nth_previous_version_antitone (db : DB) (self : Plan) (n m : Z) :
  (forall d, In d (districts db) -> d_plan d = p_id self -> 0 <= d_version d) ->
  0 <= n <= m ->
  exists a b,
    get_nth_previous_version db self n = Return a
    /\ get_nth_previous_version db self m = Return b
    /\ 0 <= b <= a
    /\ (a = 0 \/ exists d, In d (districts db) /\ d_plan d = p_id self
                            /\ d_version d = a).
Proof.
  intros Hpos Hnm.
  assert (Hr : forall k, 0 <= k ->
            get_nth_previous_version db self k
            = Return (nth (Z.to_nat k) (stored_versions db self) 0)).
  { intros k Hk. unfold get_nth_previous_version.
    assert (E : (k <? 0) = false) by (apply Z.ltb_ge; exact Hk).
    destruct (k <? Z.of_nat (List.length (stored_versions db self))) eqn:El.
    - rewrite E. reflexivity.
    - apply Z.ltb_ge in El. rewrite nth_overflow; [reflexivity | lia]. }
  exists (nth (Z.to_nat n) (stored_versions db self) 0),
         (nth (Z.to_nat m) (stored_versions db self) 0).
  split; [apply Hr; lia |]. split; [apply Hr; lia |].
  assert (Hall : Forall (fun v => 0 <= v) (stored_versions db self)).
  { apply Forall_forall. intros v Hv. apply stored_versions_In in Hv.
    destruct Hv as (d & Hd & Hp & <-). apply Hpos; assumption. }
  split.
  - apply sorted_nth_antitone; [apply stored_versions_sorted | exact Hall | lia].
  - destruct (Nat.lt_ge_cases (Z.to_nat n) (List.length (stored_versions db self)))
      as [Hn | Hn].
    + right. apply stored_versions_In. apply nth_In. exact Hn.
    + left. apply nth_overflow. exact Hn.
Qed.

Lemma plan_save_districts (db : DB) (self : Plan) :
  districts (plan_save db self) = districts db.
Proof. unfold plan_save. destruct (existsb _ _); reflexivity. Qed.

Lemma at_version_same_table (db db' : DB) (self self' : Plan) (W : Z) :
  districts db' = districts db -> p_id self' = p_id self ->
  get_districts_at_version db' self' W = get_districts_at_version db self W.
Proof.
  intros Hd Hp. unfold get_districts_at_version, district_set.
  rewrite Hd, Hp. reflexivity.
Qed.

(** X12. [purge_beyond_nth_step] never lowers [min_version] and never
    touches the version of the plan; with a negative step count it does
    nothing; and the districts of the plan as of any version from the new
    [min_version] on are the same as before. *)
Theorem purge_beyond_nth_step_window (db db' : DB) (self self' : Plan) (steps : Z) :
  keyed db ->
  purge_beyond_nth_step db self steps = Return (self', db') ->
  p_min_version self <= p_min_version self'
  /\ p_version self' = p_version self
  /\ (steps < 0 -> self' = self /\ db' = db)
  /\ forall W, p_min_version self' <= W ->
       get_districts_at_version db' self' W = get_districts_at_version db self W.
Proof.
  intros Hk H. unfold purge_beyond_nth_step in H.
  destruct (steps >=? 0) eqn:Es.
  - assert (Hs : 0 <= steps) by (apply Z.geb_le in Es; lia).
    destruct (get_nth_previous_version db self steps) as [prever | e]; [| discriminate].
    cbn [bind] in H.
    destruct (p_min_version self <? prever) eqn:Ep.
    + apply Z.ltb_lt in Ep. injection H as <- <-.
      split; [simpl; lia |]. split; [reflexivity |]. split; [lia |].
      intros W HW.
      transitivity (get_districts_at_version (purge db self (Some prever) None) self W).
      * apply at_version_same_table; [apply plan_save_districts | reflexivity].
      * apply purge_before_at_version; [exact Hk | exact HW].
    + injection H as <- <-. split; [lia |]. split; [reflexivity |].
      split; [auto |]. reflexivity.
  - injection H as <- <-. split; [lia |]. split; [reflexivity |].
    split; [auto |]. reflexivity.
Qed.


(** *** District.is_latest_version *)

(** X13. After [purge(after=V)] every district of the plan as of [V] is the
    latest version of its district: no later edit of it is left to revert. *)
Theorem is_latest_version_after_purge (db : DB) (self : Plan) (V : Z) (d : District) :
  keyed db ->
  In d (get_districts_at_version db self V) ->
  is_latest_version (purge db self None (Some V)) d = true.
Proof.
  intros Hk Hd. apply In_at_version in Hd. destruct Hd as [Hd Hl].
  apply latest_at_spec in Hl. destruct Hl as [Hv Hall].
  pose proof Hd as Hd'. apply district_set_In in Hd'. destruct Hd' as [Hdd Hp].
  unfold is_latest_version. rewrite (purge_after_districts db self V Hk).
  apply andb_true_iff. split.
  - apply forallb_forall. intros e He. apply filter_In in He.
    destruct He as [He Ha]. apply negb_true_iff in Ha. unfold after_version in Ha.
    destruct (d_plan e =? d_plan d) eqn:E1; [| reflexivity].
    destruct (d_district_id e =? d_district_id d) eqn:E2; [| reflexivity].
    simpl. apply Z.leb_le. apply Z.eqb_eq in E1, E2.
    assert (Ep : d_plan e = p_id self) by congruence.
    assert (Epb : (d_plan e =? p_id self) = true) by (apply Z.eqb_eq; exact Ep).
    rewrite Epb in Ha. simpl in Ha. apply Z.ltb_ge in Ha.
    apply Hall; [apply district_set_In; auto | exact E2 | exact Ha].
  - apply existsb_exists. exists d. split.
    + apply filter_In. split; [exact Hdd |]. apply negb_true_iff.
      unfold after_version. apply andb_false_iff. right. apply Z.ltb_ge. exact Hv.
    + rewrite !Z.eqb_refl. reflexivity.
Qed.

(** *** Plan.get_unassigned_geounits *)



(** X15. Version 0 is not a version for [get_unassigned_geounits]: asked for
    version 0 it reads the newest Unassigned row of the plan, as it does for
    any version that no row of the plan is above. *)
Theorem get_unassigned_geounits_version_zero (db : DB) (self : Plan)
    (threshold W : Z) :
  (forall d, In d (districts db) -> d_plan d = p_id self -> d_version d <= W) ->
  W <> 0 ->
  get_unassigned_geounits db self threshold 0
  = get_unassigned_geounits db self threshold W.
Proof.
  intros Hall HW. unfold get_unassigned_geounits.
  assert (E : (W =? 0) = false) by (apply Z.eqb_neq; exact HW).
  rewrite E. simpl (0 =? 0).
  assert (Hf : filter (fun d => (d_district_id d =? 0) && true) (district_set db self)
               = filter (fun d => (d_district_id d =? 0) && (d_version d <=? W))
                   (district_set db self)).
  { apply filter_ext_in. intros d Hd. apply district_set_In in Hd.
    destruct Hd as [Hd Hp]. f_equal. symmetry. apply Z.leb_le. apply Hall; assumption. }
  cbv beta iota in *. rewrite Hf. reflexivity.
Qed.

(** *** set_district_id *)

Lemma find_in_range (f : Z -> bool) (n a : nat) (i : Z) :
  find f (map Z.of_nat (seq a n)) = Some i ->
  Z.of_nat a <= i < Z.of_nat a + Z.of_nat n /\ f i = true
  /\ forall j, Z.of_nat a <= j < i -> f j = false.
Proof.
  revert a. induction n as [| n IH]; intros a H; simpl in H; [discriminate |].
  destruct (f (Z.of_nat a)) eqn:E.
  - injection H as <-. split; [lia |]. split; [exact E |]. intros j Hj. lia.
  - apply IH in H. destruct H as (Hi & Hf & Hleast).
    split; [lia |]. split; [exact Hf |]. intros j Hj.
    destruct (Z.eq_dec j (Z.of_nat a)) as [-> | Hne]; [exact E |].
    apply Hleast. lia.
Qed.

Lemma range_from_1_In (stop i : Z) : In i (range_from_1 stop) <-> 1 <= i < stop.
Proof.
  unfold range_from_1. rewrite in_map_iff. split.
  - intros (n & <- & Hn). apply in_seq in Hn. lia.
  - intros Hi. exists (Z.to_nat i). split; [lia |]. apply in_seq. lia.
Qed.

Lemma range_from_1_NoDup (stop : Z) : NoDup (range_from_1 stop).
Proof.
  unfold range_from_1. apply Finite.Injective_map_NoDup; [| apply seq_NoDup].
  intros x y H. lia.
Qed.

(** X16. A district saved without a [district_id] is refused when the ids in
    use reach [max_districts + 1]; otherwise it gets the least id from 1 on
    that is not in use, and one is always found. *)
Theorem set_district_id_least_free (db : DB) (plan_ : Plan) (version : Z) :
  let ids := ids_in_use db plan_ version in
  let max := lb_max_districts (p_legislative_body plan_) in
  match set_district_id db plan_ None version with
  | ValidationError m => m = max + 1 /\ max + 1 <= Z.of_nat (List.length ids)
  | DistrictId o =>
      Z.of_nat (List.length ids) < max + 1
      /\ exists i, o = Some i /\ 1 <= i <= max + 1 /\ ~ In i ids
                   /\ forall j, 1 <= j < i -> In j ids
  end.
Proof.
  intros ids max. unfold set_district_id. fold ids. fold max.
  destruct (max + 1 <=? Z.of_nat (List.length ids)) eqn:E.
  - apply Z.leb_le in E. auto.
  - apply Z.leb_gt in E. split; [exact E |].
    destruct (find (fun i => negb (mem_Z i ids)) (range_from_1 (max + 1 + 1)))
      as [i |] eqn:Ef.
    + exists i. split; [reflexivity |].
      pose proof (find_some _ _ Ef) as [Hin Hfree].
      apply range_from_1_In in Hin. split; [lia |].
      apply negb_true_iff in Hfree. split.
      * intros Hi. apply mem_Z_In in Hi. congruence.
      * unfold range_from_1 in Ef. apply find_in_range in Ef.
        destruct Ef as (_ & _ & Hleast). intros j Hj.
        apply mem_Z_In. specialize (Hleast j). simpl in Hleast.
        apply negb_false_iff. apply Hleast. lia.
    + exfalso.
      assert (Hincl : incl (range_from_1 (max + 1 + 1)) ids).
      { intros j Hj. pose proof (find_none _ _ Ef j Hj) as Hn.
        apply negb_false_iff in Hn. apply mem_Z_In. exact Hn. }
      pose proof (NoDup_incl_length (range_from_1_NoDup _) Hincl) as Hlen.
      unfold range_from_1 in Hlen. rewrite length_map, length_seq in Hlen. lia.
Qed.

(** *** Plan.get_available_districts *)

Lemma available_fold (ds : list District) (available : Z) :
  fold_left (fun available_districts d =>
               if takes_slot d then available_districts - 1 else available_districts)
    ds available
  = available - Z.of_nat (List.length (filter takes_slot ds)).
Proof.
  revert available. induction ds as [| d t IH]; intros available; simpl; [lia |].
  rewrite IH. destruct (takes_slot d); simpl; lia.
Qed.

Lemma occupied_split (ds : list District) :
  Forall (fun d => 0 <= d_district_id d) ds ->
  List.length (filter occupied ds)
  = Nat.add (List.length (filter (fun d => d_district_id d =? 0) ds))
            (List.length (filter takes_slot ds)).
Proof.
  induction 1 as [| d t Hd Ht IH]; simpl; [reflexivity |].
  unfold occupied at 1, takes_slot at 1, has_geom.
  destruct (d_district_id d =? 0) eqn:E0.
  - apply Z.eqb_eq in E0. rewrite E0. simpl.
    rewrite andb_false_r. simpl. rewrite IH. reflexivity.
  - apply Z.eqb_neq in E0.
    assert (Ep : (0 <? d_district_id d) = true) by (apply Z.ltb_lt; lia).
    rewrite Ep. simpl.
    destruct (d_geom d) as [g |]; simpl; [| exact IH].
    rewrite andb_true_r. destruct (empty g); simpl; rewrite IH; lia.
Qed.

(** X17. The capacity check of [paste_districts] agrees with
    [get_available_districts]: in a plan whose version has one Unassigned
    district, no district id below 0 and a geometry for every other
    district, the paste is refused exactly when no district is available. *)
Theorem paste_districts_refuses_when_none_available (self : Plan)
    (districts_ : list District) (version : option Z) (db : DB) :
  let v := match version with None => p_version self | Some v => v end in
  let current_districts := get_districts_at_version db self v in
  Forall (fun d => 0 <= d_district_id d) current_districts ->
  Forall (fun d => d_district_id d = 0 \/ d_geom d <> None) current_districts ->
  List.length (filter (fun d => d_district_id d =? 0) current_districts) = 1%nat ->
  paste_districts self districts_ version db
  = if get_available_districts db self version <=? 0
    then ((Raise too_many, self), db)
    else paste_all self districts_ v db.
Proof.
  intros v current_districts Hids Hgeom Hone.
  unfold paste_districts, get_available_districts.
  fold v. fold current_districts.
  rewrite (count_allowed_occupied _ _ Hgeom), available_fold.
  rewrite (occupied_split _ Hids), Hone.
  replace (lb_max_districts (p_legislative_body self) + 1
           - Z.of_nat (1 + List.length (filter takes_slot current_districts)))
    with (lb_max_districts (p_legislative_body self)
          - Z.of_nat (List.length (filter takes_slot current_districts))) by lia.
  reflexivity.
Qed.


(** *** District.delta_stats, again *)

Lemma mbind_Return {A B : Type} (m : MDB A) (k : A -> MDB B) (db db' : DB) (b : B) :
  mbind m k db = (Return b, db') ->
  exists a db1, m db = (Return a, db1) /\ k a db1 = (Return b, db').
Proof.
  unfold mbind. destruct (m db) as [[a | e] db1]; intros H; [eauto | discriminate].
Qed.

Lemma same_but_computed_refl (db : DB) : same_but_computed db db.
Proof. unfold same_but_computed. auto. Qed.

Lemma same_but_computed_trans (db1 db2 db3 : DB) :
  same_but_computed db1 db2 -> same_but_computed db2 db3 -> same_but_computed db1 db3.
Proof.
  unfold same_but_computed. intros (A1 & A2 & A3 & A4) (B1 & B2 & B3 & B4).
  repeat split; congruence.
Qed.

Lemma writes_ret {A : Type} (a : A) : writes_computed_only (ret a).
Proof. intros db. apply same_but_computed_refl. Qed.

Lemma writes_lift {A : Type} (o : outcome A) : writes_computed_only (lift o).
Proof. intros db. apply same_but_computed_refl. Qed.

Lemma writes_mbind {A B : Type} (m : MDB A) (k : A -> MDB B) :
  writes_computed_only m -> (forall a, writes_computed_only (k a)) ->
  writes_computed_only (mbind m k).
Proof.
  intros Hm Hk db. unfold mbind. specialize (Hm db).
  destruct (m db) as [[a | e] db1]; simpl in *; [| exact Hm].
  eapply same_but_computed_trans; [exact Hm | apply Hk].
Qed.

Lemma writes_computed_get (subject district : Z) :
  writes_computed_only (computed_get subject district).
Proof.
  intros db. unfold computed_get.
  destruct (computed_rows db subject district) as [| c [| c' t]];
    apply same_but_computed_refl.
Qed.

Lemma writes_computed_get_or_create (subject district : Z) :
  writes_computed_only (computed_get_or_create subject district).
Proof.
  intros db. unfold computed_get_or_create.
  destruct (computed_rows db subject district) as [| c [| c' t]];
    simpl; unfold same_but_computed; auto.
Qed.

Lemma writes_computed_save (c : ComputedCharacteristic) :
  writes_computed_only (write (computed_save c)).
Proof. intros db. simpl. unfold same_but_computed. auto. Qed.

Lemma writes_delta_subject (self_pk : Z) (geounits : list Geounit) (combine : bool)
    (subject : Subject) :
  writes_computed_only (delta_subject self_pk geounits combine subject).
Proof.
  unfold delta_subject. destruct (aggregate_number geounits subject) as [a |];
    [| apply writes_ret].
  apply writes_mbind; [apply writes_computed_get_or_create |]. intros cr.
  apply writes_mbind.
  - destruct (s_percentage_denominator subject) as [dn |]; [| apply writes_ret].
    apply writes_mbind; [apply writes_computed_get |]. intros dnm. apply writes_ret.
  - intros c. apply writes_mbind; [apply writes_computed_save |].
    intros _. apply writes_ret.
Qed.

Lemma writes_delta_loop (self_pk : Z) (geounits : list Geounit) (combine : bool)
    (subjects : list Subject) (changed : bool) :
  writes_computed_only (delta_loop self_pk geounits combine subjects changed).
Proof.
  revert changed. induction subjects as [| s t IH]; intros changed; simpl.
  - apply writes_ret.
  - apply writes_mbind; [apply writes_delta_subject |]. intros c. apply IH.
Qed.

(** X18. [delta_stats] writes to the computed characteristics only: the
    plans, the districts, the comments and the tags are what they were,
    whether it returns or raises. *)
Theorem delta_stats_writes_computed_only (self : District) (geounits : list Geounit)
    (combine : bool) (db : DB) :
  let db' := snd (delta_stats self geounits combine db) in
  plans db' = plans db /\ districts db' = districts db
  /\ comments db' = comments db /\ tags db' = tags db.
Proof.
  assert (H : writes_computed_only (delta_stats self geounits combine)).
  { unfold delta_stats. apply writes_mbind; [apply writes_lift |].
    intros pk. apply writes_delta_loop. }
  exact (H db).
Qed.

Lemma delta_subject_flag (self_pk : Z) (geounits : list Geounit) (combine : bool)
    (subject : Subject) (db db' : DB) (c : bool) :
  delta_subject self_pk geounits combine subject db = (Return c, db') ->
  c = has_values geounits subject /\ (c = false -> db' = db).
Proof.
  unfold delta_subject, has_values.
  destruct (aggregate_number geounits subject) as [a |].
  - intros H.
    apply mbind_Return in H. destruct H as (cr & db1 & _ & H).
    apply mbind_Return in H. destruct H as (cm & db2 & _ & H).
    apply mbind_Return in H. destruct H as (u & db3 & _ & H).
    unfold ret in H. injection H as <- _. split; [reflexivity | discriminate].
  - unfold ret. intros H. injection H as <- <-. auto.
Qed.

Lemma delta_loop_flag (self_pk : Z) (geounits : list Geounit) (combine : bool)
    (subjects : list Subject) (changed r : bool) (db db' : DB) :
  delta_loop self_pk geounits combine subjects changed db = (Return r, db') ->
  r = changed || existsb (has_values geounits) subjects
  /\ (r = false -> db' = db).
Proof.
  revert changed db. induction subjects as [| s t IH]; intros changed db H; simpl in H.
  - unfold ret in H. injection H as <- <-. simpl. rewrite orb_false_r. auto.
  - apply mbind_Return in H. destruct H as (c & db1 & Hs & H).
    apply delta_subject_flag in Hs. destruct Hs as [Hc Hdb].
    apply IH in H. destruct H as [Hr Hdb']. simpl. split.
    + rewrite Hr, Hc. destruct (has_values geounits s), changed; reflexivity.
    + intros Hf. rewrite Hdb'; [| exact Hf]. apply Hdb.
      rewrite Hf in Hr. destruct c; [discriminate | reflexivity].
Qed.

Lemma existsb_sort_by {A : Type} (f : A -> bool) (le : A -> A -> bool) (l : list A) :
  existsb f (sort_by le l) = existsb f l.
Proof.
  destruct (existsb f l) eqn:E.
  - apply existsb_exists in E. destruct E as (x & Hx & Hf).
    apply existsb_exists. exists x. split; [apply sort_by_In; exact Hx | exact Hf].
  - apply not_true_is_false. intros H. apply existsb_exists in H.
    destruct H as (x & Hx & Hf). apply sort_by_In in Hx.
    assert (existsb f l = true); [| congruence].
    apply existsb_exists. eauto.
Qed.

(** X19. When [delta_stats] returns, its flag is [True] exactly when some
    subject has characteristic values for the geounits; when it is [False]
    nothing was written. *)
Theorem delta_stats_changed_flag (self : District) (geounits : list Geounit)
    (combine changed : bool) (db db' : DB) :
  delta_stats self geounits combine db = (Return changed, db') ->
  changed = existsb (has_values geounits) subject_table
  /\ (changed = false -> db' = db).
Proof.
  unfold delta_stats. intros H.
  apply mbind_Return in H. destruct H as (pk & db1 & Hpk & H).
  unfold lift in Hpk. injection Hpk as _ <-.
  apply delta_loop_flag in H. unfold all_subjects in H.
  rewrite existsb_sort_by in H. exact H.
Qed.

(** *** District.clone_relations_from *)

Lemma clone_computed_fold (f : ComputedCharacteristic -> ComputedCharacteristic)
    (cc : list ComputedCharacteristic) (db : DB) :
  let db' := fold_left (fun db c => snd (insert_computed (f c) db)) cc db in
  (exists cs, computed db' = computed db ++ cs
              /\ Forall2 (fun c c' => cc_subject c' = cc_subject (f c)
                                      /\ cc_district c' = cc_district (f c)
                                      /\ cc_number c' = cc_number (f c)
                                      /\ cc_percentage c' = cc_percentage (f c)) cc cs)
  /\ same_but_computed db db'.
Proof.
  revert db. induction cc as [| c t IH]; intros db; cbn [fold_left].
  - split; [| apply same_but_computed_refl].
    exists []. rewrite app_nil_r. split; [reflexivity | constructor].
  - destruct (IH (snd (insert_computed (f c) db))) as [(cs & Hcs & Hall) Hsame].
    split.
    + eexists (_ :: cs). split.
      * rewrite Hcs. simpl. rewrite <- app_assoc. reflexivity.
      * constructor; [simpl; auto | exact Hall].
    + eapply same_but_computed_trans; [| exact Hsame].
      simpl. unfold same_but_computed. auto.
Qed.

Lemma clone_comments_fold (f : Comment -> Comment) (cmts : list Comment) (db : DB) :
  let db' := fold_left (fun db c => insert_comment (f c) db) cmts db in
  (exists ms, comments db' = comments db ++ ms
              /\ Forall2 (fun c c' => cmt_object_pk c' = cmt_object_pk (f c)
                                      /\ cmt_content_type c' = cmt_content_type (f c))
                   cmts ms)
  /\ plans db' = plans db /\ districts db' = districts db
  /\ computed db' = computed db /\ tags db' = tags db.
Proof.
  revert db. induction cmts as [| c t IH]; intros db; cbn [fold_left].
  - split; [| auto]. exists []. rewrite app_nil_r. split; [reflexivity | constructor].
  - destruct (IH (insert_comment (f c) db)) as [(ms & Hms & Hall) (H1 & H2 & H3 & H4)].
    split.
    + eexists (_ :: ms). split.
      * rewrite Hms. simpl. rewrite <- app_assoc. reflexivity.
      * constructor; [simpl; auto | exact Hall].
    + rewrite H1, H2, H3, H4. simpl. auto.
Qed.

Lemma clone_tags_fold (f : TaggedItem -> TaggedItem) (items : list TaggedItem) (db : DB) :
  let db' := fold_left (fun db t => insert_tag (f t) db) items db in
  (exists ts, tags db' = tags db ++ ts
              /\ Forall2 (fun t t' => ti_object_id t' = ti_object_id (f t)
                                      /\ ti_content_type t' = ti_content_type (f t))
                   items ts)
  /\ plans db' = plans db /\ districts db' = districts db
  /\ computed db' = computed db /\ comments db' = comments db.
Proof.
  revert db. induction items as [| c t IH]; intros db; cbn [fold_left].
  - split; [| auto]. exists []. rewrite app_nil_r. split; [reflexivity | constructor].
  - destruct (IH (insert_tag (f c) db)) as [(ts & Hts & Hall) (H1 & H2 & H3 & H4)].
    split.
    + eexists (_ :: ts). split.
      * rewrite Hts. simpl. rewrite <- app_assoc. reflexivity.
      * constructor; [simpl; auto | exact Hall].
    + rewrite H1, H2, H3, H4. simpl. auto.
Qed.

(** X20. [clone_relations_from] between two saved districts only appends:
    after the rows that were there come one copy of each computed
    characteristic, each comment and each tag of the origin, bound to the new
    district; plans and districts are what they were. *)
Theorem clone_relations_from_copies (self origin : District) (self_pk origin_pk : Z)
    (db : DB) :
  d_id self = Some self_pk -> d_id origin = Some origin_pk ->
  exists db' cs ms ts,
    clone_relations_from self origin db = (Return tt, db')
    /\ computed db' = computed db ++ cs
    /\ (exists rows,
          Permutation rows (filter (fun c => cc_district c =? origin_pk) (computed db))
          /\ Forall2 (computed_copy self_pk) rows cs)
    /\ comments db' = comments db ++ ms
    /\ (exists rows,
          Permutation rows
            (filter (fun c => (cmt_object_pk c =? origin_pk)
                              && is_ct_district (cmt_content_type c)) (comments db))
          /\ Forall2 (comment_copy self_pk) rows ms)
    /\ tags db' = tags db ++ ts
    /\ (exists rows,
          Permutation rows
            (filter (fun t => (ti_object_id t =? origin_pk)
                              && is_ct_district (ti_content_type t)) (tags db))
          /\ Forall2 (tag_copy self_pk) rows ts)
    /\ plans db' = plans db /\ districts db' = districts db.
Proof.
  intros Hs Ho. unfold clone_relations_from, pk_of. rewrite Hs, Ho.
  unfold mbind, lift, write.
  set (cc := filter (fun c => cc_district c =? origin_pk) (computed db)).
  pose proof (clone_computed_fold
                (fun c => mkComputed None (cc_subject c) self_pk
                            (cc_number c) (cc_percentage c)) cc db) as H1.
  cbv beta zeta in H1.
  set (db1 := fold_left _ cc db) in *.
  destruct H1 as [(cs & Hcs & Hck) (P1 & D1 & M1 & T1)].
  set (cmts := filter _ (comments db1)).
  pose proof (clone_comments_fold
                (fun c => mkComment None self_pk (cmt_content_type c)) cmts db1) as H2.
  cbv beta zeta in H2.
  set (db2 := fold_left _ cmts db1) in *.
  destruct H2 as [(ms & Hms & Hmk) (P2 & D2 & C2 & T2)].
  set (items := filter _ (tags db2)).
  pose proof (clone_tags_fold
                (fun t => mkTagged None self_pk (ti_content_type t)) items db2) as H3.
  cbv beta zeta in H3.
  set (db3 := fold_left _ items db2) in *.
  destruct H3 as [(ts & Hts & Htk) (P3 & D3 & C3 & M3)].
  exists db3, cs, ms, ts.
  split; [reflexivity |].
  split; [congruence |].
  split; [exists cc; split; [apply Permutation_refl | exact Hck] |].
  split; [congruence |].
  split; [eexists; split; [apply Permutation_refl |];
          subst cmts; rewrite M1 in Hmk; exact Hmk |].
  split; [congruence |].
  split; [eexists; split; [apply Permutation_refl |];
          subst items; rewrite T2, T1 in Htk; exact Htk |].
  split; congruence.
Qed.

(** *** Plan.fix_unassigned, again *)

Lemma dict_get_set {V : Type} (k k' : Z) (v : V) (d : list (Z * V)) :
  dict_get k (dict_set k' v d) = if k' =? k then Some v else dict_get k d.
Proof.
  induction d as [| [a w] t IH]; simpl; [reflexivity |].
  destruct (a =? k') eqn:E1; simpl.
  - apply Z.eqb_eq in E1. subst a. destruct (k' =? k); reflexivity.
  - rewrite IH. destruct (k' =? k) eqn:E2; [| reflexivity].
    apply Z.eqb_eq in E2. subst k'. rewrite E1. reflexivity.
Qed.

Lemma district_units_fold (to_add : list (Z * (Z * Q))) (units : list (Z * list Z))
    (did : Z) :
  dict_get did
    (fold_left (fun units item =>
                  match dict_get (fst (snd item)) units with
                  | Some l => dict_set (fst (snd item)) (l ++ [fst item]) units
                  | None => dict_set (fst (snd item)) [fst item] units
                  end) to_add units)
  = let new := map fst (filter (fun item => fst (snd item) =? did) to_add) in
    match dict_get did units with
    | Some l => Some (l ++ new)
    | None => match new with [] => None | _ => Some new end
    end.
Proof.
  revert units. induction to_add as [| item t IH]; intros units; simpl.
  - destruct (dict_get did units); [rewrite app_nil_r |]; reflexivity.
  - rewrite IH. clear IH.
    destruct (fst (snd item) =? did) eqn:E; simpl.
    + apply Z.eqb_eq in E. rewrite E.
      destruct (dict_get did units) as [l |]; rewrite dict_get_set, Z.eqb_refl.
      * rewrite <- app_assoc. reflexivity.
      * reflexivity.
    + destruct (dict_get (fst (snd item)) units) as [l' |];
        rewrite dict_get_set, E; reflexivity.
Qed.

(** X21. [district_units] groups the units to add by district: the entry of
    a district holds the units assigned to it in [to_add], each once, and a
    district that no unit is assigned to has no entry. *)
Theorem district_units_groups (to_add : list (Z * (Z * Q))) (did : Z) :
  match dict_get did (district_units to_add) with
  | Some gids =>
      gids <> []
      /\ Permutation gids (map fst (filter (fun item => fst (snd item) =? did) to_add))
  | None => forall gid v, ~ In (gid, (did, v)) to_add
  end.
Proof.
  unfold district_units. rewrite district_units_fold. simpl.
  destruct (map fst (filter (fun item => fst (snd item) =? did) to_add))
    as [| g t] eqn:E.
  - intros gid v Hin.
    assert (H : In gid (map fst (filter (fun item => fst (snd item) =? did) to_add))).
    { apply in_map_iff. exists (gid, (did, v)). split; [reflexivity |].
      apply filter_In. split; [exact Hin | apply Z.eqb_refl]. }
    rewrite E in H. destruct H.
  - split; [discriminate | apply Permutation_refl].
Qed.

(** X22. When [fix_unassigned] reports [False], whatever the message, it
    has written nothing: the database and the plan are what they were. *)
Theorem fix_unassigned_false_writes_nothing (self self' : Plan) (version : option Z)
    (threshold : Z) (db db' : DB) (m : message) :
  fix_unassigned self version threshold db = ((Return (false, m), self'), db') ->
  self' = self /\ db' = db.
Proof.
  unfold fix_unassigned. intros H.
  destruct (find_fixes db self _ threshold) as [[g | to_add n] | e].
  - injection H as _ <- <-. auto.
  - destruct to_add as [| item t].
    + injection H as _ <- <-. auto.
    + destruct (add_fixes self _ _ _ db) as [[[u | e] s] d]; discriminate.
  - discriminate.
Qed.


Lemma adjacency_folds (unassigned_ids : list Z) (unassigned_geom : GEOSGeometry)
    (districts_ : list District) (to_add : list (Z * (Z * Q))) :
  adjacency unassigned_ids unassigned_geom districts_ to_add
  = fold_left (fun to_add district =>
      fold_left (fun to_add poly =>
        fold_left (assign_touching district poly)
          (edge_units unassigned_ids unassigned_geom) to_add)
        (polys district) to_add)
      districts_ to_add.
Proof. reflexivity. Qed.

Lemma fold_left_invariant {A B : Type} (f : A -> B -> A) (P : A -> Prop) (l : list B) :
  (forall a b, In b l -> P a -> P (f a b)) ->
  forall a, P a -> P (fold_left f l a).
Proof.
  induction l as [| x t IH]; intros Hf a Ha; simpl; [exact Ha |].
  apply IH.
  - intros a' b Hb. apply Hf. right. exact Hb.
  - apply Hf; [left; reflexivity | exact Ha].
Qed.

Lemma fold_left_establish {A B : Type} (f : A -> B -> A) (P : A -> Prop) (b0 : B)
    (l : list B) :
  (forall a b, P a -> P (f a b)) -> (forall a, P (f a b0)) -> In b0 l ->
  forall a, P (fold_left f l a).
Proof.
  intros Hkeep Hset. induction l as [| x t IH]; intros Hin a; [destruct Hin |].
  simpl. destruct Hin as [-> | Hin].
  - apply fold_left_invariant; [intros a' b _; apply Hkeep | apply Hset].
  - apply IH. exact Hin.
Qed.

Lemma edge_units_In (unassigned_ids : list Z) (unassigned_geom : GEOSGeometry)
    (g : Geounit) :
  In g (edge_units unassigned_ids unassigned_geom) ->
  In g catalog /\ In (gu_id g) unassigned_ids
  /\ geos_intersects (gu_geom g) unassigned_geom = true.
Proof.
  unfold edge_units. revert g.
  apply (fold_left_invariant _
           (fun temp => forall g, In g temp ->
              In g catalog /\ In (gu_id g) unassigned_ids
              /\ geos_intersects (gu_geom g) unassigned_geom = true)).
  - intros temp poly _ Htemp.
    apply (fold_left_invariant _
             (fun temp => forall g, In g temp ->
                In g catalog /\ In (gu_id g) unassigned_ids
                /\ geos_intersects (gu_geom g) unassigned_geom = true));
      [| exact Htemp].
    intros temp' u Hu Htemp' g Hg.
    destruct (negb (mem_Z (gu_id u) (map gu_id temp'))
              && geos_intersects (gu_geom u) unassigned_geom) eqn:E;
      [| apply Htemp'; exact Hg].
    apply in_app_or in Hg. destruct Hg as [Hg | [<- | []]]; [apply Htemp'; exact Hg |].
    apply andb_true_iff in E. destruct E as [_ Ei].
    apply filter_In in Hu. destruct Hu as [Hu Hm]. apply mem_Z_In in Hm. auto.
  - intros g [].
Qed.

Lemma assign_touching_keeps (district : District) (poly : GEOSGeometry)
    (to_add : list (Z * (Z * Q))) (geounit : Geounit) (gid : Z) (bound : Q) :
  assigned_within gid bound to_add ->
  assigned_within gid bound (assign_touching district poly to_add geounit).
Proof.
  intros (did & v & Hget & Hv). unfold assign_touching.
  destruct (geos_touches _ _); [| exists did, v; auto].
  destruct (Z.eq_dec (gu_id geounit) gid) as [Eg | Eg].
  - rewrite Eg, Hget. simpl.
    destruct (Qle_bool v (comparator_value district)) eqn:El; simpl;
      [exists did, v; auto |].
    exists (d_district_id district), (comparator_value district).
    rewrite dict_get_set, Z.eqb_refl. split; [reflexivity |].
    assert (Hlt : (comparator_value district < v)%Q).
    { apply Qnot_le_lt. intros Hle. apply Qle_bool_iff in Hle. congruence. }
    apply Qlt_le_weak. eapply Qlt_le_trans; [exact Hlt | exact Hv].
  - apply Z.eqb_neq in Eg.
    destruct (dict_get (gu_id geounit) to_add) as [old |].
    + destruct (negb _); [| exists did, v; auto].
      exists did, v. rewrite dict_get_set, Eg. auto.
    + exists did, v. rewrite dict_get_set, Eg. auto.
Qed.

Lemma assign_touching_sets (district : District) (poly : GEOSGeometry)
    (to_add : list (Z * (Z * Q))) (geounit : Geounit) :
  geos_touches (gu_geom geounit) (exterior poly) = true ->
  assigned_within (gu_id geounit) (comparator_value district)
    (assign_touching district poly to_add geounit).
Proof.
  intros Ht. unfold assign_touching. rewrite Ht.
  destruct (dict_get (gu_id geounit) to_add) as [[did v] |] eqn:Eg.
  - simpl. destruct (Qle_bool v (comparator_value district)) eqn:El; simpl.
    + exists did, v. split; [exact Eg |]. apply Qle_bool_iff. exact El.
    + exists (d_district_id district), (comparator_value district).
      rewrite dict_get_set, Z.eqb_refl. split; [reflexivity | apply Qle_refl].
  - exists (d_district_id district), (comparator_value district).
    rewrite dict_get_set, Z.eqb_refl. split; [reflexivity | apply Qle_refl].
Qed.

(** X23. In the adjacency search of [fix_unassigned] an edge unit that
    touches a polygon of a district ends with an entry, and the value of the
    entry is not above the comparator value of that district: the unit goes
    to a touching district of least value, or stays with an entry below. *)
Theorem adjacency_least_comparator (unassigned_ids : list Z)
    (unassigned_geom : GEOSGeometry) (districts_ : list District)
    (to_add : list (Z * (Z * Q))) (district : District) (poly : GEOSGeometry)
    (geounit : Geounit) :
  In district districts_ -> In poly (polys district) ->
  In geounit (edge_units unassigned_ids unassigned_geom) ->
  geos_touches (gu_geom geounit) (exterior poly) = true ->
  exists did v,
    dict_get (gu_id geounit)
      (adjacency unassigned_ids unassigned_geom districts_ to_add) = Some (did, v)
    /\ (v <= comparator_value district)%Q.
Proof.
  intros Hd Hp Hg Ht. rewrite adjacency_folds.
  change (assigned_within (gu_id geounit) (comparator_value district)
            (fold_left (fun to_add district =>
               fold_left (fun to_add poly =>
                 fold_left (assign_touching district poly)
                   (edge_units unassigned_ids unassigned_geom) to_add)
                 (polys district) to_add) districts_ to_add)).
  assert (Hunits : forall d p a,
            assigned_within (gu_id geounit) (comparator_value district) a ->
            assigned_within (gu_id geounit) (comparator_value district)
              (fold_left (assign_touching d p)
                 (edge_units unassigned_ids unassigned_geom) a)).
  { intros d p. apply fold_left_invariant. intros a' u _.
    apply assign_touching_keeps. }
  assert (Hpolys : forall d a,
            assigned_within (gu_id geounit) (comparator_value district) a ->
            assigned_within (gu_id geounit) (comparator_value district)
              (fold_left (fun to_add poly =>
                 fold_left (assign_touching d poly)
                   (edge_units unassigned_ids unassigned_geom) to_add)
                 (polys d) a)).
  { intros d. apply fold_left_invariant. intros a' p _. apply Hunits. }
  apply (fold_left_establish _ _ district); [intros a d; apply Hpolys | | exact Hd].
  intros a.
  apply (fold_left_establish _ _ poly); [intros a' p; apply Hunits | | exact Hp].
  intros a'.
  apply (fold_left_establish _ _ geounit);
    [intros a'' u; apply assign_touching_keeps | | exact Hg].
  intros a''. apply assign_touching_sets. exact Ht.
Qed.

(** X24. The adjacency search gives a unit to a district only for a reason:
    an entry of its result was in [to_add] before, or it names a district of
    the list, with its comparator value, and the unit is an unassigned unit
    of the catalog that intersects the unassigned area and touches a polygon
    of that district. *)
Theorem adjacency_provenance (unassigned_ids : list Z) (unassigned_geom : GEOSGeometry)
    (districts_ : list District) (to_add : list (Z * (Z * Q))) (gid did : Z) (v : Q) :
  dict_get gid (adjacency unassigned_ids unassigned_geom districts_ to_add)
  = Some (did, v) ->
  dict_get gid to_add = Some (did, v)
  \/ exists district poly geounit,
       In district districts_ /\ In poly (polys district)
       /\ In geounit catalog /\ gu_id geounit = gid /\ In gid unassigned_ids
       /\ geos_intersects (gu_geom geounit) unassigned_geom = true
       /\ geos_touches (gu_geom geounit) (exterior poly) = true
       /\ did = d_district_id district /\ v = comparator_value district.
Proof.
  rewrite adjacency_folds. revert did v.
  set (P := fun acc : list (Z * (Z * Q)) => forall did v,
              dict_get gid acc = Some (did, v) ->
              dict_get gid to_add = Some (did, v)
              \/ exists district poly geounit,
                   In district districts_ /\ In poly (polys district)
                   /\ In geounit catalog /\ gu_id geounit = gid /\ In gid unassigned_ids
                   /\ geos_intersects (gu_geom geounit) unassigned_geom = true
                   /\ geos_touches (gu_geom geounit) (exterior poly) = true
                   /\ did = d_district_id district /\ v = comparator_value district).
  apply (fold_left_invariant _ P); [| intros did v H; left; exact H].
  intros a district Hd Ha.
  apply (fold_left_invariant _ P); [| exact Ha].
  intros a' poly Hp Ha'.
  apply (fold_left_invariant _ P); [| exact Ha'].
  intros a'' geounit Hg Ha'' did v Hget.
  unfold assign_touching in Hget.
  destruct (geos_touches (gu_geom geounit) (exterior poly)) eqn:Et;
    [| apply Ha''; exact Hget].
  assert (Hnew : dict_get gid
                   (dict_set (gu_id geounit)
                      (d_district_id district, comparator_value district) a'')
                 = Some (did, v) ->
                 P a'' -> dict_get gid to_add = Some (did, v)
                 \/ exists district poly geounit,
                      In district districts_ /\ In poly (polys district)
                      /\ In geounit catalog /\ gu_id geounit = gid
                      /\ In gid unassigned_ids
                      /\ geos_intersects (gu_geom geounit) unassigned_geom = true
                      /\ geos_touches (gu_geom geounit) (exterior poly) = true
                      /\ did = d_district_id district /\ v = comparator_value district).
  { intros Hs HP. rewrite dict_get_set in Hs.
    destruct (gu_id geounit =? gid) eqn:Eg; [| apply HP; exact Hs].
    apply Z.eqb_eq in Eg. injection Hs as <- <-.
    apply edge_units_In in Hg. destruct Hg as (Hc & Hi & Hx).
    right. exists district, poly, geounit. rewrite <- Eg. repeat split; auto. }
  destruct (dict_get (gu_id geounit) a'') as [old |].
  - destruct (negb _); [apply Hnew; assumption | apply Ha''; exact Hget].
  - apply Hnew; assumption.
Qed.


(** *** District.reset_stats *)

Lemma reset_subject_zeroes (self_pk : Z) (subject : Subject) (db db' : DB) (c : bool) :
  (forall r, In r (computed db) -> cc_id r <> None) ->
  reset_subject self_pk subject db = (Return c, db') ->
  (forall r, In r (computed db') -> cc_id r <> None)
  /\ (forall r, In r (computed db') -> cc_district r = self_pk ->
                cc_subject r = s_id subject -> zeroed r)
  /\ (forall r, In r (computed db') -> In r (computed db) \/ zeroed r).
Proof.
  intros Hids H. unfold reset_subject in H.
  apply mbind_Return in H. destruct H as ([c0 created] & db1 & Hget & H).
  unfold computed_get_or_create in Hget.
  assert (Hrows : forall r, In r (computed db) -> cc_district r = self_pk ->
                            cc_subject r = s_id subject ->
                            In r (computed_rows db (s_id subject) self_pk)).
  { intros r Hr Hd Hs. unfold computed_rows. apply filter_In. split; [exact Hr |].
    rewrite Hd, Hs, !Z.eqb_refl. reflexivity. }
  destruct (computed_rows db (s_id subject) self_pk) as [| c1 [| c2 t]] eqn:Er.
  - simpl in Hget. injection Hget as <- <- <-. simpl in H.
    unfold ret in H. injection H as _ <-. simpl.
    split; [| split].
    + intros r Hr. apply in_app_or in Hr.
      destruct Hr as [Hr | [<- | []]]; [apply Hids; exact Hr | discriminate].
    + intros r Hr Hd Hs. apply in_app_or in Hr.
      destruct Hr as [Hr | [<- | []]].
      * destruct (Hrows r Hr Hd Hs).
      * unfold zeroed. simpl. auto.
    + intros r Hr. apply in_app_or in Hr.
      destruct Hr as [Hr | [<- | []]]; [left; exact Hr |].
      right. unfold zeroed. simpl. auto.
  - injection Hget as <- <- <-. simpl in H.
    apply mbind_Return in H. destruct H as (u & db2 & Hw & H).
    unfold ret in H. injection H as _ <-.
    unfold write in Hw. injection Hw as _ <-.
    assert (Hc1 : In c1 (computed db)).
    { assert (Hin : In c1 (computed_rows db (s_id subject) self_pk))
        by (rewrite Er; left; reflexivity).
      unfold computed_rows in Hin. apply filter_In in Hin. apply Hin. }
    destruct (cc_id c1) as [k |] eqn:Ek; [| destruct (Hids c1 Hc1 Ek)].
    unfold computed_save. simpl. rewrite Ek.
    assert (Hz : zeroed (set_cc_percentage (set_cc_number c1 0%Q) (Some 0%Q)))
      by (unfold zeroed; simpl; auto).
    split; [| split].
    + intros r Hr. apply in_map_iff in Hr. destruct Hr as (r0 & <- & Hr0).
      destruct (has_pk k (cc_id r0)); [simpl; rewrite Ek; discriminate |].
      apply Hids. exact Hr0.
    + intros r Hr Hd Hs. apply in_map_iff in Hr. destruct Hr as (r0 & <- & Hr0).
      destruct (has_pk k (cc_id r0)) eqn:Ep; [exact Hz |].
      pose proof (Hrows r0 Hr0 Hd Hs) as Hin.
      destruct Hin as [<- | []]. rewrite Ek in Ep. simpl in Ep.
      rewrite Z.eqb_refl in Ep. discriminate.
    + intros r Hr. apply in_map_iff in Hr. destruct Hr as (r0 & <- & Hr0).
      destruct (has_pk k (cc_id r0)); [right; exact Hz | left; exact Hr0].
  - discriminate.
Qed.

Lemma reset_loop_zeroes (self_pk : Z) (subjects : list Subject) (changed c : bool)
    (db db' : DB) (done : list Z) :
  (forall r, In r (computed db) -> cc_id r <> None) ->
  (forall r, In r (computed db) -> cc_district r = self_pk ->
             In (cc_subject r) done -> zeroed r) ->
  reset_loop self_pk subjects changed db = (Return c, db') ->
  forall r, In r (computed db') -> cc_district r = self_pk ->
            In (cc_subject r) (done ++ map s_id subjects) -> zeroed r.
Proof.
  revert changed db done. induction subjects as [| s t IH];
    intros changed db done Hids Hdone H; simpl in H.
  - unfold ret in H. injection H as _ <-. simpl. rewrite app_nil_r. exact Hdone.
  - apply mbind_Return in H. destruct H as (c1 & db1 & Hs & H).
    apply (reset_subject_zeroes _ _ _ _ _ Hids) in Hs.
    destruct Hs as (Hids1 & Hzero & Hold).
    intros r Hr Hd Hin.
    apply (IH _ _ (done ++ [s_id s]) Hids1) with (r := r) in H; auto.
    + intros r1 Hr1 Hd1 Hin1. apply in_app_or in Hin1.
      destruct Hin1 as [Hin1 | [Hin1 | []]].
      * destruct (Hold r1 Hr1) as [Ho | Hz]; [apply Hdone; assumption | exact Hz].
      * apply Hzero; auto.
    + rewrite <- app_assoc. exact Hin.
Qed.

(** X25. When [reset_stats] returns for a saved district, every computed
    characteristic of the district for a subject of the subject table has
    the number zero, and a percentage that is zero or null. *)
Theorem reset_stats_zeroes (self : District) (self_pk : Z) (changed : bool)
    (db db' : DB) :
  (forall r, In r (computed db) -> cc_id r <> None) ->
  d_id self = Some self_pk ->
  reset_stats self db = (Return changed, db') ->
  forall r s, In r (computed db') -> In s subject_table ->
              cc_district r = self_pk -> cc_subject r = s_id s ->
              cc_number r = 0%Q
              /\ (cc_percentage r = None \/ cc_percentage r = Some 0%Q).
Proof.
  intros Hids Hpk H r s Hr Hs Hd Hsub.
  unfold reset_stats, pk_of in H. rewrite Hpk in H.
  apply mbind_Return in H. destruct H as (pk & db1 & Hl & H).
  unfold lift in Hl. injection Hl as <- <-.
  apply (reset_loop_zeroes _ _ _ _ _ _ [] Hids) with (r := r) in H; auto.
  - intros r1 _ _ [].
  - simpl. rewrite Hsub. apply in_map. exact Hs.
Qed.

(** *** The versions of the fixes *)

Lemma retarget_fold (self : Plan) (num_adds v : Z) (rows : list District) :
  interim_version self num_adds v = false ->
  (forall x, In x rows -> d_id x <> None) ->
  forall db,
    (forall r, In r (districts db) -> d_plan r = p_id self ->
               interim_version self num_adds (d_version r) = true -> In r rows) ->
    forall r,
      In r (districts
              (fold_left (fun db dist => snd (district_save (set_d_version dist v) db))
                 rows db)) ->
      d_plan r = p_id self -> interim_version self num_adds (d_version r) = false.
Proof.
  intros Hv. induction rows as [| x t IH]; intros Hids db Hin r Hr Hp; simpl in Hr.
  - apply not_true_is_false. intros Hi. destruct (Hin r Hr Hp Hi).
  - apply (IH (fun y Hy => Hids y (or_intror Hy))
              (snd (district_save (set_d_version x v) db))); [| exact Hr | exact Hp].
    clear r Hr Hp. intros r Hr Hp Hi.
    destruct (d_id x) as [k |] eqn:Ek; [| destruct (Hids x (or_introl eq_refl) Ek)].
    unfold district_save in Hr. simpl in Hr. rewrite Ek in Hr.
    destruct (existsb (fun r0 => has_pk k (d_id r0)) (districts db)) eqn:Ee;
      simpl in Hr.
    + apply in_map_iff in Hr. destruct Hr as (r0 & Hr0 & Hin0).
      destruct (has_pk k (d_id r0)) eqn:Epk.
      * subst r. simpl in Hi. congruence.
      * subst r0. destruct (Hin r Hin0 Hp Hi) as [<- | Ht]; [| exact Ht].
        rewrite Ek in Epk. simpl in Epk. rewrite Z.eqb_refl in Epk. discriminate.
    + apply in_app_or in Hr. destruct Hr as [Hr | [<- | []]].
      * destruct (Hin r Hr Hp Hi) as [<- | Ht]; [| exact Ht].
        assert (Hex : existsb (fun r0 => has_pk k (d_id r0)) (districts db) = true);
          [| congruence].
        apply existsb_exists. exists x. split; [exact Hr |].
        rewrite Ek. simpl. apply Z.eqb_refl.
      * simpl in Hi. congruence.
Qed.

(** X26. After the fixes are compacted, no district row of the plan is left
    at a version between the ones of the fixes: with more than one call of
    [add_geounits], and rows that all have a primary key, every row of the
    plan is below [version - num_adds + 1] or at [version] and above. *)
Theorem compact_fixes_no_interim_version (self : Plan) (num_adds : Z) (db : DB)
    (r : District) :
  (forall d, In d (districts db) -> d_id d <> None) ->
  1 < num_adds ->
  In r (districts (compact_fixes self num_adds db)) -> d_plan r = p_id self ->
  d_version r < p_version self - num_adds + 1 \/ p_version self <= d_version r.
Proof.
  intros Hids Hn Hr Hp. unfold compact_fixes in Hr.
  assert (E : (1 <? num_adds) = true) by (apply Z.ltb_lt; exact Hn).
  rewrite E in Hr.
  assert (Hno : interim_version self num_adds (d_version r) = false).
  { revert Hr Hp. apply retarget_fold.
    - unfold interim_version. apply andb_false_iff. right. apply Z.ltb_irrefl.
    - intros x Hx. apply filter_In in Hx. destruct Hx as [Hx _].
      apply district_set_In in Hx. destruct Hx as [Hx _].
      unfold delete_districts in Hx. simpl in Hx. apply filter_In in Hx.
      apply Hids. apply Hx.
    - intros r0 Hr0 Hp0 Hi. apply filter_In. split; [| exact Hi].
      apply district_set_In. auto. }
  unfold interim_version in Hno. apply andb_false_iff in Hno.
  destruct Hno as [Hno | Hno]; [apply Z.leb_gt in Hno | apply Z.ltb_ge in Hno]; lia.
Qed.


(** *** Plan.update_num_members *)

Lemma clone_relations_from_districts (self origin : District) (db : DB) :
  districts (snd (clone_relations_from self origin db)) = districts db.
Proof.
  unfold clone_relations_from, pk_of, mbind, lift, write.
  destruct (d_id self) as [self_pk |]; [| reflexivity].
  destruct (d_id origin) as [origin_pk |]; [| reflexivity].
  cbn [snd].
  set (cc := filter (fun c => cc_district c =? origin_pk) (computed db)).
  pose proof (clone_computed_fold
                (fun c => mkComputed None (cc_subject c) self_pk
                            (cc_number c) (cc_percentage c)) cc db) as H1.
  cbv beta zeta in H1.
  set (db1 := fold_left _ cc db) in *.
  destruct H1 as [_ (_ & D1 & _ & _)].
  set (cmts := filter _ (comments db1)).
  pose proof (clone_comments_fold
                (fun c => mkComment None self_pk (cmt_content_type c)) cmts db1) as H2.
  cbv beta zeta in H2.
  set (db2 := fold_left _ cmts db1) in *.
  destruct H2 as [_ (_ & D2 & _ & _)].
  set (items := filter _ (tags db2)).
  pose proof (clone_tags_fold
                (fun t => mkTagged None self_pk (ti_content_type t)) items db2) as H3.
  cbv beta zeta in H3.
  set (db3 := fold_left _ items db2) in *.
  destruct H3 as [_ (_ & D3 & _ & _)].
  congruence.
Qed.

(** X27. [update_num_members] on a district of the plan leaves the rows
    that were there and adds one, with a new primary key: the district at
    the version of the plan with the new number of members.  The plan as of
    its version then has this row. *)
Theorem update_num_members_adds_version (self : Plan) (district : District)
    (num_members : Z) (db : DB) :
  d_plan district = p_id self ->
  let db' := snd (update_num_members self district num_members db) in
  let row := set_d_id (with_num_members self district num_members)
               (Some (next_pk db)) in
  districts db' = districts db ++ [row]
  /\ d_num_members row = num_members
  /\ d_district_id row = d_district_id district
  /\ In row (get_districts_at_version db' self (p_version self)).
Proof.
  intros Hp db' row.
  assert (Hd : districts db' = districts db ++ [row]).
  { subst db'. unfold update_num_members, mbind, run.
    unfold district_save at 1. cbn [d_id with_num_members set_d_id].
    cbv beta iota zeta.
    rewrite clone_relations_from_districts. reflexivity. }
  split; [exact Hd |]. split; [reflexivity |]. split; [reflexivity |].
  apply In_at_version.
  assert (Hrow : In row (district_set db' self)).
  { apply district_set_In. rewrite Hd. split; [| exact Hp].
    apply in_or_app. right. left. reflexivity. }
  split; [exact Hrow |].
  apply latest_at_spec. split; [apply Z.le_refl |].
  intros e He Hed Hev. exact Hev.
Qed.


End Redistricting.

(** ** Examples and instances *)

(** Scenario of the specification: district 1 has rows at the versions 1, 2,
    4 and 5; after [purge(before=4)] the versions 4 and 5 are left, the
    first previous version is 4 and the second is 0. *)
Example purge_collapses_history :
  stored_versions (purge Sample.by_name Sample.history Sample.plan5 (Some 4) None)
    Sample.plan5 = [5; 4]
  /\ get_nth_previous_version
       (purge Sample.by_name Sample.history Sample.plan5 (Some 4) None) Sample.plan5 1
     = Return 4
  /\ get_nth_previous_version
       (purge Sample.by_name Sample.history Sample.plan5 (Some 4) None) Sample.plan5 2
     = Return 0.
Proof. vm_compute. repeat split. Qed.

Lemma get_nth_previous_version_spec_witness :
  get_nth_previous_version Sample.history Sample.plan5 1
  = Return (nth (Z.to_nat 1) (stored_versions Sample.history Sample.plan5) 0).
Proof.
  apply (get_nth_previous_version_spec Sample.history Sample.plan5 1). lia.
Defined.

Lemma history_keyed : keyed Sample.history.
Proof.
  intros d e Hd He Heq. simpl in Hd, He.
  repeat (destruct Hd as [Hd | Hd]; [subst d |]); try contradiction;
    repeat (destruct He as [He | He]; [subst e |]); try contradiction;
    simpl in Heq; try discriminate; split; (discriminate || reflexivity).
Defined.

Lemma purge_after_spec_witness :
  districts (purge Sample.by_name Sample.history Sample.plan5 None (Some 2))
  = filter (fun d => negb (after_version Sample.plan5 2 d)) (districts Sample.history).
Proof.
  apply (purge_after_spec Sample.same_geometry Sample.invalid_topology
           Sample.invalid_topology Sample.invalid_topology Sample.never Sample.never
           Sample.collection Sample.collection Sample.blocks 3 Sample.chain []
           Sample.by_name Sample.member Sample.no_relation Sample.no_buffer
           Sample.no_simplify Sample.no_coords Sample.history Sample.plan5 2
           history_keyed).
Defined.

Lemma add_geounits_locked_target_witness :
  add_geounits Sample.same_geometry Sample.invalid_topology
    Sample.invalid_topology Sample.invalid_topology Sample.never Sample.never
    Sample.collection Sample.collection Sample.blocks 3 Sample.chain []
    Sample.by_name Sample.member Sample.no_relation Sample.no_buffer
    Sample.no_simplify Sample.no_coords
    Sample.plan1 1 [3] 3 1 false Sample.locked_db
  = ((Return false, Sample.plan1), Sample.locked_db).
Proof.
  apply add_geounits_locked_target. vm_compute. reflexivity.
Defined.




(** C8.  The code at a plan whose district 1 has a row with no geometry:
    one slot of three is in use, so the check of the specification passes,
    but the count of the slots raises on [d.geom.empty] and nothing is
    pasted. *)
Theorem paste_districts_null_geometry :
  occupied_slots Sample.by_name Sample.null_geometry_db Sample.plan0 0
    < lb_max_districts (p_legislative_body Sample.plan0) + 1
  /\ paste_districts Sample.by_name Sample.paste_nothing Sample.plan0
       [Sample.pasted] None Sample.null_geometry_db
     = ((Raise AttributeError, Sample.plan0), Sample.null_geometry_db).
Proof. vm_compute. split; reflexivity. Qed.

(** C9.  The code at a plan whose Unassigned district has no row at the
    version of the call: two of the four blocks are assigned, which is below
    a minimum of 75 percent, and no unassigned polygon lies in a district;
    the specification expects [False] and a message, the lookup of the
    Unassigned row raises. *)
Theorem fix_unassigned_no_unassigned_row :
  get_unassigned_geounits Sample.blocks_in Sample.moved_db Sample.plan2 100 2
    = Return [(3, "block"%string); (4, "block"%string)]
  /\ num_total_units Sample.blocks 3 = 4
  /\ below_min_pct 75 2 4 = true
  /\ fix_unassigned Sample.same_geometry Sample.invalid_topology
       Sample.invalid_topology Sample.invalid_topology Sample.never Sample.never
       Sample.collection Sample.collection Sample.blocks 3 75 Sample.chain []
       Sample.by_name Sample.member Sample.no_relation Sample.no_buffer
       Sample.no_simplify Sample.no_coords Sample.never Sample.never Sample.never
       Sample.blocks_in Sample.population Sample.plan2 None 100 Sample.moved_db
     = ((Raise DoesNotExist, Sample.plan2), Sample.moved_db).
Proof. vm_compute. repeat split. Qed.


(** *** Instances of the further properties *)

Lemma can_edit_implies_copy_not_view_witness :
  can_copy (mkUser 7 false) (mkAccess 7 false false) = true
  /\ can_view (mkUser 7 false) (mkAccess 7 false false) = false
  /\ (forall other, can_view other (mkAccess 7 false false) = false).
Proof.
  apply (can_edit_implies_copy_not_view (mkUser 7 false) (mkAccess 7 false false)).
  reflexivity.
Defined.

Lemma sortVer_lexicographic_witness :
  sortVer (Sample.row 1 1 "District 1" None 4 false)
  < sortVer (Sample.row 2 2 "District 2" None 1 false)
  <-> 1 < 2 \/ (1 = 2 /\ 4 < 1).
Proof.
  apply (sortVer_lexicographic (Sample.row 1 1 "District 1" None 4 false)
           (Sample.row 2 2 "District 2" None 1 false)); simpl; lia.
Defined.

Lemma simplify_level_index_witness :
  exists items,
    d_simple (fst (simplify Sample.no_simplify Sample.no_coords
                     (mkBody "District %d" 2
                        [mkGeolevel 3 0 (100 # 1); mkGeolevel 1 10 (1 # 1)] 1)
                     (Sample.row 1 1 "District 1" (Some (Sample.mp [Sample.square 0 0]))
                        0 false)
                     Sample.two_districts))
    = Some (mkGeom (srid (Sample.mp [Sample.square 0 0])) (GeometryCollection items))
    /\ nth_error items (Z.to_nat (3 - 1))
       = Some (body (if 0 <? Sample.no_coords (Sample.mp [Sample.square 0 0])
                     then Sample.no_simplify (Sample.mp [Sample.square 0 0]) (100 # 1)
                     else Sample.mp [Sample.square 0 0])).
Proof.
  apply (simplify_level_index Sample.no_simplify Sample.no_coords
           (mkBody "District %d" 2
              [mkGeolevel 3 0 (100 # 1); mkGeolevel 1 10 (1 # 1)] 1)
           (Sample.row 1 1 "District 1" (Some (Sample.mp [Sample.square 0 0])) 0 false)
           (Sample.mp [Sample.square 0 0]) Sample.two_districts
           (mkGeolevel 3 0 (100 # 1))).
  - reflexivity.
  - simpl. lia.
  - left. reflexivity.
Defined.

Lemma get_mixed_geounits_unknown_level_witness :
  get_mixed_geounits Sample.same_geometry Sample.grid_difference
    Sample.grid_difference Sample.grid_within Sample.grid_intersects
    Sample.collection Sample.county_and_blocks [10] Sample.senate 9
    (Some (Sample.mp [Sample.square 0 0])) true
  = Return [].
Proof.
  apply (get_mixed_geounits_unknown_level Sample.same_geometry Sample.grid_difference
           Sample.grid_difference Sample.grid_within Sample.grid_intersects
           Sample.collection Sample.county_and_blocks [10] Sample.senate 9
           (Some (Sample.mp [Sample.square 0 0])) true).
  repeat constructor; simpl; lia.
Defined.

Lemma get_mixed_geounits_provenance_witness :
  exists c,
    In c Sample.county_and_blocks
    /\ row_geounit (mkGeounit 10 None 1
                      (Sample.mp [Sample.square 0 0; Sample.square 1 0])
                      (Some (Sample.pt 0 0)))
       = row_geounit c
    /\ (In (gu_id c) [10]
        \/ exists level, In level (lb_geolevels Sample.senate)
                         /\ gu_geolevel_id c = gl_id level /\ gl_id level <> 1).
Proof.
  apply (get_mixed_geounits_provenance Sample.same_geometry Sample.grid_difference
           Sample.grid_difference Sample.grid_within Sample.grid_intersects
           Sample.collection Sample.county_and_blocks [10] Sample.senate 1
           (Some (Sample.mp [Sample.square 0 0; Sample.square 1 0; Sample.square 2 0]))
           true
           [row_geounit (mkGeounit 10 None 1
                           (Sample.mp [Sample.square 0 0; Sample.square 1 0])
                           (Some (Sample.pt 0 0)))]).
  - vm_compute. reflexivity.
  - left. reflexivity.
Defined.

Lemma purge_before_keeps_later_versions_witness :
  get_districts_at_version Sample.by_name
    (purge Sample.by_name Sample.history Sample.plan5 (Some 4) None) Sample.plan5 5
  = get_districts_at_version Sample.by_name Sample.history Sample.plan5 5.
Proof.
  apply (purge_before_keeps_later_versions Sample.by_name Sample.history
           Sample.plan5 4 5 None history_keyed).
  lia.
Defined.

Lemma purge_after_keeps_earlier_versions_witness :
  get_districts_at_version Sample.by_name
    (purge Sample.by_name Sample.history Sample.plan5 None (Some 4)) Sample.plan5 2
  = get_districts_at_version Sample.by_name Sample.history Sample.plan5 2
  /\ (forall v,
        In v (stored_versions
                (purge Sample.by_name Sample.history Sample.plan5 None (Some 4))
                Sample.plan5) -> v <= 4).
Proof.
  apply (purge_after_keeps_earlier_versions Sample.by_name Sample.history
           Sample.plan5 4 2 history_keyed).
  lia.
Defined.

Lemma history_versions (d : District) :
  In d (districts Sample.history) -> d_plan d = p_id Sample.plan5 -> 0 <= d_version d.
Proof.
  intros Hd _. simpl in Hd.
  repeat (destruct Hd as [Hd | Hd]; [subst d; simpl; lia |]). contradiction.
Defined.

Lemma get_nth_previous_version_antitone_witness :
  exists a b,
    get_nth_previous_version Sample.history Sample.plan5 1 = Return a
    /\ get_nth_previous_version Sample.history Sample.plan5 2 = Return b
    /\ 0 <= b <= a
    /\ (a = 0 \/ exists d, In d (districts Sample.history)
                           /\ d_plan d = p_id Sample.plan5 /\ d_version d = a).
Proof.
  apply (get_nth_previous_version_antitone Sample.history Sample.plan5 1 2
           history_versions).
  lia.
Defined.

Lemma purge_beyond_nth_step_window_witness :
  exists self' db',
    purge_beyond_nth_step Sample.by_name Sample.history Sample.plan5 1
    = Return (self', db')
    /\ p_min_version Sample.plan5 <= p_min_version self'
    /\ p_version self' = p_version Sample.plan5
    /\ (1 < 0 -> self' = Sample.plan5 /\ db' = Sample.history)
    /\ (forall W, p_min_version self' <= W ->
          get_districts_at_version Sample.by_name db' self' W
          = get_districts_at_version Sample.by_name Sample.history Sample.plan5 W).
Proof.
  eexists. eexists.
  assert (H : purge_beyond_nth_step Sample.by_name Sample.history Sample.plan5 1
              = Return (set_p_min_version Sample.plan5 4,
                        plan_save
                          (purge Sample.by_name Sample.history Sample.plan5 (Some 4) None)
                          (set_p_min_version Sample.plan5 4)))
    by (vm_compute; reflexivity).
  split; [exact H |].
  apply (purge_beyond_nth_step_window Sample.by_name Sample.history _ Sample.plan5 _ 1
           history_keyed H).
Defined.

Lemma is_latest_version_after_purge_witness :
  is_latest_version (purge Sample.by_name Sample.history Sample.plan5 None (Some 2))
    (Sample.row 2 1 "District 1" (Some (Sample.mp [Sample.square 0 0])) 2 false)
  = true.
Proof.
  apply (is_latest_version_after_purge Sample.by_name Sample.history Sample.plan5 2
           (Sample.row 2 1 "District 1" (Some (Sample.mp [Sample.square 0 0])) 2 false)
           history_keyed).
  vm_compute. left. reflexivity.
Defined.


Lemma moved_versions (d : District) :
  In d (districts Sample.moved_db) -> d_plan d = p_id Sample.plan2 -> d_version d <= 2.
Proof.
  intros Hd _. simpl in Hd.
  repeat (destruct Hd as [Hd | Hd]; [subst d; simpl; lia |]). contradiction.
Defined.

Lemma get_unassigned_geounits_version_zero_witness :
  get_unassigned_geounits Sample.blocks_in Sample.moved_db Sample.plan2 100 0
  = get_unassigned_geounits Sample.blocks_in Sample.moved_db Sample.plan2 100 2.
Proof.
  apply (get_unassigned_geounits_version_zero Sample.blocks_in Sample.moved_db
           Sample.plan2 100 2 moved_versions).
  lia.
Defined.

Lemma paste_districts_refuses_when_none_available_witness :
  paste_districts Sample.by_name Sample.paste_nothing Sample.plan0 [Sample.pasted]
    None Sample.two_districts
  = if get_available_districts Sample.by_name Sample.two_districts Sample.plan0 None
       <=? 0
    then ((Raise too_many, Sample.plan0), Sample.two_districts)
    else paste_all Sample.by_name Sample.paste_nothing Sample.plan0 [Sample.pasted]
           (p_version Sample.plan0) Sample.two_districts.
Proof.
  apply (paste_districts_refuses_when_none_available Sample.by_name
           Sample.paste_nothing Sample.plan0 [Sample.pasted] None Sample.two_districts).
  - vm_compute. repeat (constructor; [discriminate |]). constructor.
  - vm_compute.
    repeat (constructor; [first [left; reflexivity | right; discriminate] |]).
    constructor.
  - vm_compute. reflexivity.
Defined.

Lemma delta_stats_changed_flag_witness :
  true = existsb (has_values Sample.chain_values
                    [mkGeounit 1 None 3 (Sample.mp [Sample.square 0 0]) None])
           Sample.chain
  /\ (true = false ->
      snd (delta_stats Sample.chain Sample.chain_values
             (Sample.row 1 1 "District 1" None 0 false)
             [mkGeounit 1 None 3 (Sample.mp [Sample.square 0 0]) None] true
             Sample.chain_db)
      = Sample.chain_db).
Proof.
  apply (delta_stats_changed_flag Sample.chain Sample.chain_values
           (Sample.row 1 1 "District 1" None 0 false)
           [mkGeounit 1 None 3 (Sample.mp [Sample.square 0 0]) None] true true
           Sample.chain_db).
  vm_compute. reflexivity.
Defined.

Lemma clone_relations_from_copies_witness :
  exists db' cs ms ts,
    clone_relations_from
      (Sample.row 2 1 "District 1" (Some (Sample.mp [Sample.square 0 0])) 2 false)
      (Sample.row 4 1 "District 1" (Some (Sample.mp [Sample.square 0 0])) 5 false)
      Sample.history
    = (Return tt, db')
    /\ computed db' = computed Sample.history ++ cs
    /\ (exists rows,
          Permutation rows (filter (fun c => cc_district c =? 4) (computed Sample.history))
          /\ Forall2 (computed_copy 2) rows cs)
    /\ comments db' = comments Sample.history ++ ms
    /\ (exists rows,
          Permutation rows
            (filter (fun c => (cmt_object_pk c =? 4)
                              && is_ct_district (cmt_content_type c))
               (comments Sample.history))
          /\ Forall2 (comment_copy 2) rows ms)
    /\ tags db' = tags Sample.history ++ ts
    /\ (exists rows,
          Permutation rows
            (filter (fun t => (ti_object_id t =? 4)
                              && is_ct_district (ti_content_type t))
               (tags Sample.history))
          /\ Forall2 (tag_copy 2) rows ts)
    /\ plans db' = plans Sample.history /\ districts db' = districts Sample.history.
Proof.
  apply (clone_relations_from_copies
           (Sample.row 2 1 "District 1" (Some (Sample.mp [Sample.square 0 0])) 2 false)
           (Sample.row 4 1 "District 1" (Some (Sample.mp [Sample.square 0 0])) 5 false)
           2 4 Sample.history); reflexivity.
Defined.

Lemma fix_unassigned_false_writes_nothing_witness :
  Sample.plan0 = Sample.plan0 /\ Sample.two_districts = Sample.two_districts.
Proof.
  apply (fix_unassigned_false_writes_nothing Sample.same_geometry
           Sample.invalid_topology Sample.invalid_topology Sample.invalid_topology
           Sample.never Sample.never Sample.collection Sample.collection Sample.blocks
           3 75 Sample.chain [] Sample.by_name Sample.member Sample.no_relation
           Sample.no_buffer Sample.no_simplify Sample.no_coords Sample.never
           Sample.never Sample.never Sample.blocks_in Sample.population
           Sample.plan0 Sample.plan0 None 100 Sample.two_districts Sample.two_districts
           (AllDistrictsNeeded 1)).
  vm_compute. reflexivity.
Defined.

Lemma adjacency_least_comparator_witness :
  exists did v,
    dict_get 3
      (adjacency Sample.blocks Sample.always Sample.always Sample.population [3; 4]
         (Sample.mp [Sample.square 2 0; Sample.square 3 0])
         [Sample.row 2 1 "District 1"
            (Some (Sample.mp [Sample.square 0 0; Sample.square 1 0])) 1 false] [])
    = Some (did, v)
    /\ (v <= Sample.population
               (Sample.row 2 1 "District 1"
                  (Some (Sample.mp [Sample.square 0 0; Sample.square 1 0])) 1 false))%Q.
Proof.
  apply (adjacency_least_comparator Sample.blocks Sample.always Sample.always
           Sample.population [3; 4] (Sample.mp [Sample.square 2 0; Sample.square 3 0])
           [Sample.row 2 1 "District 1"
              (Some (Sample.mp [Sample.square 0 0; Sample.square 1 0])) 1 false] []
           (Sample.row 2 1 "District 1"
              (Some (Sample.mp [Sample.square 0 0; Sample.square 1 0])) 1 false)
           (mkGeom (Some 3785) (Polygon (Sample.square 1 0)))
           (mkGeounit 3 None 3 (Sample.mp [Sample.square 2 0]) (Some (Sample.pt 2 0)))).
  - left. reflexivity.
  - vm_compute. right. left. reflexivity.
  - vm_compute. left. reflexivity.
  - reflexivity.
Defined.

Lemma adjacency_provenance_witness :
  dict_get 3 [] = Some (1, 0%Q)
  \/ exists district poly geounit,
       In district [Sample.row 2 1 "District 1"
                      (Some (Sample.mp [Sample.square 0 0; Sample.square 1 0])) 1 false]
       /\ In poly (polys district)
       /\ In geounit Sample.blocks /\ gu_id geounit = 3 /\ In 3 [3; 4]
       /\ Sample.always (gu_geom geounit)
            (Sample.mp [Sample.square 2 0; Sample.square 3 0]) = true
       /\ Sample.always (gu_geom geounit) (exterior poly) = true
       /\ 1 = d_district_id district /\ 0%Q = Sample.population district.
Proof.
  apply (adjacency_provenance Sample.blocks Sample.always Sample.always
           Sample.population [3; 4] (Sample.mp [Sample.square 2 0; Sample.square 3 0])
           [Sample.row 2 1 "District 1"
              (Some (Sample.mp [Sample.square 0 0; Sample.square 1 0])) 1 false] []
           3 1 0%Q).
  vm_compute. reflexivity.
Defined.

Lemma chain_db_saved (r : ComputedCharacteristic) :
  In r (computed Sample.chain_db) -> cc_id r <> None.
Proof.
  intros Hr. simpl in Hr.
  repeat (destruct Hr as [Hr | Hr]; [subst r; discriminate |]). contradiction.
Defined.

Lemma reset_stats_zeroes_witness :
  cc_number (mkComputed (Some 3) 2 1 0%Q (Some 0%Q)) = 0%Q
  /\ (cc_percentage (mkComputed (Some 3) 2 1 0%Q (Some 0%Q)) = None
      \/ cc_percentage (mkComputed (Some 3) 2 1 0%Q (Some 0%Q)) = Some 0%Q).
Proof.
  apply (reset_stats_zeroes Sample.chain (Sample.row 1 1 "District 1" None 0 false) 1
           true Sample.chain_db
           (snd (reset_stats Sample.chain (Sample.row 1 1 "District 1" None 0 false)
                   Sample.chain_db))
           chain_db_saved eq_refl eq_refl
           (mkComputed (Some 3) 2 1 0%Q (Some 0%Q)) (mkSubject 2 (Some 1))).
  - vm_compute. right. left. reflexivity.
  - right. left. reflexivity.
  - reflexivity.
  - reflexivity.
Defined.

Lemma moved_db_saved (d : District) : In d (districts Sample.moved_db) -> d_id d <> None.
Proof.
  intros Hd. simpl in Hd.
  repeat (destruct Hd as [Hd | Hd]; [subst d; discriminate |]). contradiction.
Defined.

Lemma compact_fixes_no_interim_version_witness :
  d_version (Sample.row 4 1 "District 1" (Some (Sample.mp [Sample.square 0 0])) 3 false)
  < p_version (mkPlan 1 false 3 0 Sample.senate) - 2 + 1
  \/ p_version (mkPlan 1 false 3 0 Sample.senate)
     <= d_version (Sample.row 4 1 "District 1" (Some (Sample.mp [Sample.square 0 0]))
                     3 false).
Proof.
  apply (compact_fixes_no_interim_version (mkPlan 1 false 3 0 Sample.senate) 2
           Sample.moved_db
           (Sample.row 4 1 "District 1" (Some (Sample.mp [Sample.square 0 0])) 3 false)
           moved_db_saved).
  - lia.
  - vm_compute. right. right. right. left. reflexivity.
  - reflexivity.
Defined.

Lemma update_num_members_adds_version_witness :
  let district :=
    Sample.row 4 1 "District 1" (Some (Sample.mp [Sample.square 0 0])) 5 false in
  let db' := snd (update_num_members Sample.plan5 district 3 Sample.history) in
  let row := set_d_id (with_num_members Sample.plan5 district 3)
               (Some (next_pk Sample.history)) in
  districts db' = districts Sample.history ++ [row]
  /\ d_num_members row = 3
  /\ d_district_id row = d_district_id district
  /\ In row (get_districts_at_version Sample.by_name db' Sample.plan5
               (p_version Sample.plan5)).
Proof.
  apply (update_num_members_adds_version Sample.by_name Sample.plan5
           (Sample.row 4 1 "District 1" (Some (Sample.mp [Sample.square 0 0])) 5 false)
           3 Sample.history).
  reflexivity.
Defined.
